(** * Post model of the team-discussion API (api/server/models/Post.ts)

    A shallow embedding of the mongoose model [Post]: the markdown link
    renderer of [markdownToHtml], the permission check and the four static
    methods [getList], [add], [edit] and [delete], followed by the properties
    the specification states about them. *)

From stdpp Require Import gmap strings list fin_maps sorting infinite.

Local Open Scope string_scope.
Local Open Scope Z_scope.

(** ** JavaScript values used by the model *)

Module Js.

(** A string is truthy unless it is empty ([!content], [!id], [!userId],
    [title ? ... : ...], [!lang]). *)
Definition truthy (s : string) : bool :=
  match s with
  | EmptyString => false
  | String _ _ => true
  end.

(** [s.startsWith(pat)] *)
Fixpoint startsWith (s pat : string) : bool :=
  match pat, s with
  | EmptyString, _ => true
  | String _ _, EmptyString => false
  | String p pat', String c s' => if decide (c = p) then startsWith s' pat' else false
  end.

(** [s.substring(n)]: what is left of [s] after its first [n] characters. *)
Fixpoint substring (n : nat) (s : string) : string :=
  match n, s with
  | O, _ => s
  | S _, EmptyString => EmptyString
  | S n', String _ s' => substring n' s'
  end.

(** [s.replace(pat, rep)] with a string pattern: only the first occurrence
    of [pat] is replaced. The replacement strings of the model contain no
    [$], so no replacement pattern is ever expanded. *)
Fixpoint replace (s pat rep : string) : string :=
  if startsWith s pat then rep +:+ substring (String.length pat) s
  else match s with
       | EmptyString => EmptyString
       | String c s' => String c (replace s' pat rep)
       end.

(** [s.includes(sub)] *)
Fixpoint includes (s sub : string) : bool :=
  if startsWith s sub then true
  else match s with
       | EmptyString => false
       | String _ s' => includes s' sub
       end.

(** [xs.indexOf(x)]: the first position of [x], or [-1]. *)
Fixpoint indexOf (xs : list string) (x : string) : Z :=
  match xs with
  | [] => -1
  | y :: ys =>
      if decide (y = x) then 0
      else let i := indexOf ys x in
           if decide (i = -1) then -1 else i + 1
  end.

End Js.

(** ** The link renderer of [markdownToHtml] *)

(** The double quote and the line feed of the template literals. *)
Definition dq : string := String (Ascii.ascii_of_nat 34) EmptyString.
Definition nl : string := String (Ascii.ascii_of_nat 10) EmptyString.

(** [const t = title ? ` title="${title}"` : '';] *)
Definition title_attribute (title : option string) : string :=
  match title with
  | Some s => if Js.truthy s then " title=" +:+ dq +:+ s +:+ dq else EmptyString
  | None => EmptyString
  end.

(** [renderer.link = (href, title, text) => ...] *)
Definition link (href : string) (title : option string) (text : string) : string :=
  let t := title_attribute title in
  if Js.startsWith text "<code>@#" then
    Js.replace text "<code>@#" "<code>@" +:+ " "
  else
    nl +:+ "      <a target=" +:+ dq +:+ "_blank" +:+ dq
       +:+ " href=" +:+ dq +:+ href +:+ dq
       +:+ " rel=" +:+ dq +:+ "noopener noreferrer" +:+ dq +:+ t +:+ ">"
    +:+ nl +:+ "        " +:+ text
    +:+ nl +:+ "        <i class=" +:+ dq +:+ "material-icons" +:+ dq
       +:+ " style=" +:+ dq +:+ "font-size: 16px; vertical-align: baseline" +:+ dq +:+ ">"
    +:+ nl +:+ "          launch"
    +:+ nl +:+ "        </i>"
    +:+ nl +:+ "      </a>"
    +:+ nl +:+ "    ".

(** The vocabulary of the properties of [link]. *)
Definition quoted (s : string) : string := dq +:+ s +:+ dq.

(** Only spaces and line feeds. *)
Fixpoint blank (s : string) : bool :=
  match s with
  | EmptyString => true
  | String c s' =>
      (bool_decide (c = Ascii.ascii_of_nat 32) || bool_decide (c = Ascii.ascii_of_nat 10))
      && blank s'
  end.

(** ** The libraries [marked], [he] and [highlight.js]

    They are not part of this repository: the model takes them as the
    operations of a class, so that every result holds for whatever they
    compute. [marked.setOptions] is called on each rendering, just before
    [marked] itself, so the options are passed to [marked] directly. *)

Record MarkedOptions := {
  renderer_link : string → option string → string → string;
  breaks : bool;
  highlight : string → option string → string
}.

Class Libraries := {
  marked : MarkedOptions → string → string;
  he_decode : string → string;
  hljs_highlightAuto : string → string;
  hljs_highlight : string → string → string
}.

Section Renderer.
Context `{Libraries}.

(** [highlight(code, lang) { if (!lang) ... }] *)
Definition highlight_code (code : string) (lang : option string) : string :=
  match lang with
  | Some l => if Js.truthy l then hljs_highlight l code else hljs_highlightAuto code
  | None => hljs_highlightAuto code
  end.

Definition markdownToHtml (content : string) : string :=
  marked {| renderer_link := link; breaks := true; highlight := highlight_code |}
         (he_decode content).

End Renderer.

(** ** Documents and collections *)

(** Dates are milliseconds since the epoch. *)
Abbreviation Date := Z (only parsing).

Module PostDocument.
Record t := mk {
  createdUserId : string;
  discussionId : string;
  content : string;
  htmlContent : string;
  isEdited : bool;
  createdAt : Date;
  lastUpdatedAt : option Date
}.
End PostDocument.
Import PostDocument.

(** Modelled from the spec: the models of [./Discussion] and [./Team] are
    not among the sources. A discussion has a [teamId] and [memberIds], a
    team has [memberIds]; the fields are those [checkPermission] selects
    ([teamId memberIds slug] and [memberIds slug]). *)
Module Discussion.
Record t := mk {
  teamId : string;
  memberIds : list string;
  slug : string
}.
End Discussion.

Module Team.
Record t := mk {
  memberIds : list string;
  slug : string
}.
End Team.

(** A collection maps the [_id] of a document to its fields; a document read
    from the [Post] collection is the pair of both. *)
Abbreviation Stored := (string * PostDocument.t)%type (only parsing).

Record Db := {
  posts : gmap string PostDocument.t;
  discussions : gmap string Discussion.t;
  teams : gmap string Team.t
}.

Definition set_posts (db : Db) (ps : gmap string PostDocument.t) : Db :=
  {| posts := ps; discussions := discussions db; teams := teams db |}.

(** ** Exceptions, and the monad of the asynchronous methods *)

Inductive exn :=
  | Error (message : string)            (* [throw new Error(message)] *)
  | TypeError (property : string)       (* reading [property] of [null] *)
  | ValidationError (paths : list string). (* mongoose: required paths left empty *)

Inductive outcome (A : Type) :=
  | Ok (a : A)
  | Throw (e : exn).
Arguments Ok {A} a.
Arguments Throw {A} e.

(** The database calls a method issues, in the order it awaits them. *)
Inductive Query :=
  | Post_find (discussionId : string)
  | Post_findById (id : string)
  | Post_create
  | Post_findOneAndUpdate (id : string)
  | Post_deleteOne (id : string)
  | Discussion_findById (id : string)
  | Team_findById (id : string).

(** A method runs on the database and yields its outcome, the database it
    leaves behind and the calls it made. *)
Definition M (A : Type) : Type := Db → outcome A * Db * list Query.

Definition ret {A} (a : A) : M A := λ db, (Ok a, db, []).
Definition throw {A} (e : exn) : M A := λ db, (Throw e, db, []).
Definition bind {A B} (m : M A) (k : A → M B) : M B := λ db,
  match m db with
  | (Ok a, db1, q1) =>
      match k a db1 with
      | (r, db2, q2) => (r, db2, (q1 ++ q2)%list)
      end
  | (Throw e, db1, q1) => (Throw e, db1, q1)
  end.

Global Instance M_ret : MRet M := @ret.
Global Instance M_bind : MBind M := λ A B k m, bind m k.

(** ** The mongoose model operations the methods call

    A collection is keyed by the string form of the [_id] of its documents.
    A lookup takes the id it is given as the key: the cast of the id to an
    [ObjectId], which mongoose makes first and which fails on a string that
    spells none, is not part of the model. What is proved of a lookup that
    finds nothing is therefore stated for ids that are [isObjectId]. *)

Module Mongoose.

(** The string form of an [ObjectId]: 24 hexadecimal digits, in lower
    case. Mongoose casts such a string to the [ObjectId] it spells, and the
    [_id] of a stored document reads back as such a string. *)
Definition hex_digit (c : Ascii.ascii) : bool :=
  let n := Ascii.nat_of_ascii c in
  ((48 <=? n) && (n <=? 57) || (97 <=? n) && (n <=? 102))%nat.

Fixpoint all_hex (s : string) : bool :=
  match s with
  | EmptyString => true
  | String c s' => hex_digit c && all_hex s'
  end.

Definition isObjectId (id : string) : bool :=
  (String.length id =? 24)%nat && all_hex id.

(** The schema marks [createdUserId], [discussionId], [content] and
    [htmlContent] as required strings: mongoose's required validator
    rejects a string path that is missing or the empty string. *)
Definition failing (paths : list (string * string)) : list string :=
  (filter (λ kv, Js.truthy kv.2 = false) paths).*1.

Definition validate (p : PostDocument.t) : list string :=
  failing [("createdUserId", createdUserId p); ("discussionId", discussionId p);
           ("content", content p); ("htmlContent", htmlContent p)]%string.

(** [Post.find({ discussionId }).sort({ createdAt: 1 })] *)
Definition createdAt_le (a b : Stored) : Prop := createdAt a.2 ≤ createdAt b.2.
Global Instance createdAt_le_dec : RelDecision createdAt_le.
Proof. intros a b. unfold createdAt_le. apply _. Defined.

Definition find_sort (discussionId : string) : M (list Stored) := λ db,
  (Ok (merge_sort createdAt_le
         (filter (λ d : Stored, PostDocument.discussionId d.2 = discussionId)
                 (map_to_list (posts db)))),
   db, [Post_find discussionId]).

(** [Post.findById(id)]: the document, or [null]. *)
Definition findById (id : string) : M (option PostDocument.t) := λ db,
  (Ok (posts db !! id), db, [Post_findById id]).

(** [Post.create({ createdUserId, discussionId, content, htmlContent,
    createdAt })]: the schema's default gives [isEdited = false], and
    [lastUpdatedAt] is left unset; the document is validated, then inserted
    under a new [_id], which is one no document of the collection has. *)
Definition create (createdUserId discussionId content htmlContent : string)
    (createdAt : Date) : M Stored := λ db,
  let doc := {| PostDocument.createdUserId := createdUserId;
                PostDocument.discussionId := discussionId;
                PostDocument.content := content;
                PostDocument.htmlContent := htmlContent;
                isEdited := false;
                PostDocument.createdAt := createdAt;
                lastUpdatedAt := None |} in
  match validate doc with
  | [] => let id := fresh (dom (posts db)) in
          (Ok (id, doc), set_posts db (<[id := doc]> (posts db)), [Post_create])
  | paths => (Throw (ValidationError paths), db, [Post_create])
  end.

(** [Post.findOneAndUpdate({ _id: id }, { content, htmlContent, isEdited,
    lastUpdatedAt }, { runValidators: true, new: true })]: the update
    validators run on the paths that are set; the updated document is
    returned, or [null] when no document has this [_id]. *)
Definition findOneAndUpdate (id : string)
    (content htmlContent : string) (isEdited : bool) (lastUpdatedAt : Date)
    : M (option Stored) := λ db,
  match failing [("content", content); ("htmlContent", htmlContent)]%string with
  | [] =>
      match posts db !! id with
      | Some old =>
          let new := {| createdUserId := createdUserId old;
                        discussionId := discussionId old;
                        content := content;
                        htmlContent := htmlContent;
                        isEdited := isEdited;
                        createdAt := createdAt old;
                        lastUpdatedAt := Some lastUpdatedAt |} in
          (Ok (Some (id, new)), set_posts db (<[id := new]> (posts db)),
           [Post_findOneAndUpdate id])
      | None => (Ok None, db, [Post_findOneAndUpdate id])
      end
  | paths => (Throw (ValidationError paths), db, [Post_findOneAndUpdate id])
  end.

(** [Post.deleteOne({ _id: id })] *)
Definition deleteOne (id : string) : M unit := λ db,
  (Ok (), set_posts db (delete id (posts db)), [Post_deleteOne id]).

(** [Discussion.findById(id)] and [Team.findById(id)] *)
Definition findDiscussion (id : string) : M (option Discussion.t) := λ db,
  (Ok (discussions db !! id), db, [Discussion_findById id]).

Definition findTeam (id : string) : M (option Team.t) := λ db,
  (Ok (teams db !! id), db, [Team_findById id]).

End Mongoose.

(** ** The static methods of [PostClass] *)

Module PostClass.
Section Methods.
Context `{Libraries}.

Definition checkPermission (userId discussionId : string)
    (post : option PostDocument.t) : M (Team.t * Discussion.t) :=
  if negb (Js.truthy userId) || negb (Js.truthy discussionId) then
    throw (Error "Bad data")
  else if match post with
          | Some p => bool_decide (createdUserId p ≠ userId)
          | None => false
          end then
    throw (Error "Permission denied")
  else
    discussion ← Mongoose.findDiscussion discussionId;
    match discussion with
    | None => throw (Error "Discussion not found")
    | Some discussion =>
        if bool_decide (Js.indexOf (Discussion.memberIds discussion) userId = -1) then
          throw (Error "Permission denied")
        else
          team ← Mongoose.findTeam (Discussion.teamId discussion);
          match team with
          | None => throw (Error "Team not found")
          | Some team =>
              if bool_decide (Js.indexOf (Team.memberIds team) userId = -1) then
                throw (Error "Team not found")
              else ret (team, discussion)
          end
    end.

Definition getList (userId discussionId : string) : M (list Stored) :=
  checkPermission userId discussionId None;;
  Mongoose.find_sort discussionId.

(** [now] is the value of [new Date()]. *)
Definition add (now : Date) (content userId discussionId : string) : M Stored :=
  if negb (Js.truthy content) then throw (Error "Bad data")
  else
    let htmlContent := markdownToHtml content in
    post ← Mongoose.create userId discussionId content htmlContent now;
    ret post.

Definition edit (now : Date) (content userId id : string) : M (option Stored) :=
  if negb (Js.truthy content) || negb (Js.truthy id) then throw (Error "Bad data")
  else
    post ← Mongoose.findById id;
    match post with
    | None => throw (TypeError "discussionId")
    | Some post =>
        checkPermission userId (discussionId post) (Some post);;
        let htmlContent := markdownToHtml content in
        updatedObj ← Mongoose.findOneAndUpdate id content htmlContent true now;
        ret updatedObj
    end.

Definition delete (userId id : string) : M unit :=
  if negb (Js.truthy id) then throw (Error "Bad data")
  else
    post ← Mongoose.findById id;
    match post with
    | None => throw (TypeError "discussionId")
    | Some post =>
        checkPermission userId (discussionId post) (Some post);;
        Mongoose.deleteOne id
    end.

End Methods.
End PostClass.

(** ** The error kinds of the specification

    [Error('Bad data')] and a failed validation are invalid input, the two
    [... not found] messages and the [TypeError] raised on a post that was
    not found are [NotFound], and [Error('Permission denied')] is
    [PermissionDenied]. *)

Inductive ErrorKind := InvalidInput | NotFound | PermissionDenied.

Definition kind_of (e : exn) : ErrorKind :=
  match e with
  | Error m =>
      if decide (m = "Permission denied") then PermissionDenied
      else if decide (m = "Discussion not found") then NotFound
      else if decide (m = "Team not found") then NotFound
      else InvalidInput
  | TypeError _ => NotFound
  | ValidationError _ => InvalidInput
  end.

(** ** The vocabulary of the properties *)

(** Membership in a list that is written out. *)
Ltac in_list :=
  solve [repeat first [apply list_elem_of_here | apply list_elem_of_further]].

(** Unfolds the monad of the methods. *)
Ltac unfold_M :=
  unfold mbind, M_bind, mret, M_ret, bind, ret, throw in *.

Section Vocabulary.
Context `{Libraries}.

(** The given post, if any, was created by the user. *)
Definition is_author (userId : string) (post : option PostDocument.t) : Prop :=
  ∀ p, post = Some p → createdUserId p = userId.

(** The document [findOneAndUpdate] writes in [edit]. *)
Definition edited (old : PostDocument.t) (now : Date) (content0 : string) : PostDocument.t :=
  {| createdUserId := createdUserId old;
     discussionId := discussionId old;
     content := content0;
     htmlContent := markdownToHtml content0;
     isEdited := true;
     createdAt := createdAt old;
     lastUpdatedAt := Some now |}.

(** The document [create] builds in [add]. *)
Definition added (now : Date) (content0 userId discussionId0 : string) : PostDocument.t :=
  {| createdUserId := userId;
     discussionId := discussionId0;
     content := content0;
     htmlContent := markdownToHtml content0;
     isEdited := false;
     createdAt := now;
     lastUpdatedAt := None |}.

(** [edit] and [delete] both throw [e], leave the database as it was and
    have made the calls [q]. *)
Definition both_throw (now : Date) (content userId id : string) (db : Db)
    (e : exn) (q : list Query) : Prop :=
  PostClass.edit now content userId id db = (Throw e, db, q)
  ∧ PostClass.delete userId id db = (Throw e, db, q).

(** The stored [htmlContent] is the rendering of the stored [content]. *)
Definition rendered (p : PostDocument.t) : Prop :=
  htmlContent p = markdownToHtml (content p).

(** One successful call of a method that writes to the [Post] collection,
    and the databases such calls lead to from an empty collection. *)
Inductive step : Db → Db → Prop :=
  | step_add now content userId discussionId db doc db' q :
      PostClass.add now content userId discussionId db = (Ok doc, db', q) → step db db'
  | step_edit now content userId id db r db' q :
      PostClass.edit now content userId id db = (Ok r, db', q) → step db db'
  | step_delete userId id db u db' q :
      PostClass.delete userId id db = (Ok u, db', q) → step db db'.

Inductive reachable : Db → Prop :=
  | reachable_empty db : posts db = ∅ → reachable db
  | reachable_step db db' : reachable db → step db db' → reachable db'.

(** The user may read the discussion: the user id and the discussion id
    are not empty, the discussion exists and lists the user, and so does the
    team of the discussion. *)
Definition member_of (db : Db) (userId discussionId0 : string) : Prop :=
  userId ≠ EmptyString ∧ discussionId0 ≠ EmptyString
  ∧ match discussions db !! discussionId0 with
    | Some discussion =>
        userId ∈ Discussion.memberIds discussion
        ∧ match teams db !! Discussion.teamId discussion with
          | Some team => userId ∈ Team.memberIds team
          | None => False
          end
    | None => False
    end.

Global Instance member_of_dec db userId discussionId0 :
  Decision (member_of db userId discussionId0).
Proof. unfold member_of. repeat case_match; apply _. Defined.

(** The posts of a discussion, in the order [find_sort] returns them. *)
Definition listing (db : Db) (discussionId0 : string) : list (string * PostDocument.t) :=
  merge_sort Mongoose.createdAt_le
    (filter (λ d : string * PostDocument.t, discussionId d.2 = discussionId0)
            (map_to_list (posts db))).

(** The messages [checkPermission] throws. *)
Definition permission_errors : list exn :=
  [Error "Bad data"; Error "Permission denied";
   Error "Discussion not found"; Error "Team not found"].

(** The calls that read or write the [Post] collection. *)
Definition on_posts (c : Query) : bool :=
  match c with
  | Discussion_findById _ | Team_findById _ => false
  | _ => true
  end.

End Vocabulary.

(** ** A sample installation, for concrete runs *)

Definition sample_marked (o : MarkedOptions) (src : string) : string :=
  "<p>" +:+ src +:+ "</p>" +:+ nl.

Definition sample_libraries : Libraries :=
  {| marked := sample_marked;
     he_decode := λ s, s;
     hljs_highlightAuto := λ code, code;
     hljs_highlight := λ _ code, code |}.

Definition alice_post : PostDocument.t :=
  {| createdUserId := "alice"; discussionId := "d1"; content := "hello";
     htmlContent := @markdownToHtml sample_libraries "hello";
     isEdited := false; createdAt := 1000; lastUpdatedAt := None |}.

Definition sample_db : Db :=
  {| posts := {[ "p1" := alice_post ]};
     discussions := {[ "d1" := Discussion.mk "t1" ["alice"; "bob"] "general" ]};
     teams := {[ "t1" := Team.mk ["alice"; "bob"] "acme" ]} |}.

Definition team_without_alice_db : Db :=
  {| posts := {[ "p1" := alice_post ]};
     discussions := {[ "d1" := Discussion.mk "t1" ["alice"; "bob"] "general" ]};
     teams := {[ "t1" := Team.mk ["bob"] "acme" ]} |}.

Definition posts_only_db : Db :=
  {| posts := {[ "p1" := alice_post ]}; discussions := ∅; teams := ∅ |}.

Definition bob_reply : PostDocument.t :=
  {| createdUserId := "bob"; discussionId := "d1"; content := "hi";
     htmlContent := @markdownToHtml sample_libraries "hi";
     isEdited := false; createdAt := 3000; lastUpdatedAt := None |}.

Definition carol_elsewhere : PostDocument.t :=
  {| createdUserId := "carol"; discussionId := "d2"; content := "other";
     htmlContent := @markdownToHtml sample_libraries "other";
     isEdited := false; createdAt := 2000; lastUpdatedAt := None |}.

Definition three_posts_db : Db :=
  {| posts := {[ "p3" := bob_reply; "p2" := carol_elsewhere; "p1" := alice_post ]};
     discussions := {[ "d1" := Discussion.mk "t1" ["alice"; "bob"] "general" ]};
     teams := {[ "t1" := Team.mk ["alice"; "bob"] "acme" ]} |}.

(** A well-formed id under which the sample databases store nothing. *)
Definition unused_id : string := "5f1d7f3e2c8b4a0012345678".

(** The sample database before any post, and after a call of [add], [edit]
    and [delete] each. *)
Definition empty_forum : Db :=
  {| posts := ∅; discussions := discussions sample_db; teams := teams sample_db |}.

Definition after_first_add : Db :=
  set_posts empty_forum (<["0" := alice_post]> (posts empty_forum)).

Definition new_post : PostDocument.t := @added sample_libraries 2000 "new" "alice" "d1".

Definition after_add : Db :=
  set_posts sample_db (<["0" := new_post]> (posts sample_db)).

Definition edited_post : PostDocument.t := @edited sample_libraries alice_post 2000 "new".

Definition after_edit : Db :=
  set_posts sample_db (<["p1" := edited_post]> (posts sample_db)).

Definition after_delete : Db :=
  set_posts sample_db (delete "p1" (posts sample_db)).

Definition list_calls : list Query :=
  [Discussion_findById "d1"; Team_findById "t1"; Post_find "d1"].

Definition edit_calls : list Query :=
  [Post_findById "p1"; Discussion_findById "d1"; Team_findById "t1";
   Post_findOneAndUpdate "p1"].

Definition delete_calls : list Query :=
  [Post_findById "p1"; Discussion_findById "d1"; Team_findById "t1";
   Post_deleteOne "p1"].

(** * Properties *)

(** ** JavaScript helpers *)

Section JsFacts.

Lemma truthy_true s : Js.truthy s = true ↔ s ≠ EmptyString.
Proof. destruct s; simpl; split; intros; congruence. Qed.

Lemma truthy_false s : Js.truthy s = false ↔ s = EmptyString.
Proof. destruct s; simpl; split; intros; congruence. Qed.

Lemma app_cons c s t : String c s +:+ t = String c (s +:+ t).
Proof. reflexivity. Qed.

Lemma app_empty_l t : EmptyString +:+ t = t.
Proof. reflexivity. Qed.

Lemma app_assoc' s t u : (s +:+ t) +:+ u = s +:+ (t +:+ u).
Proof. induction s as [|c s IH]; [done|]. by rewrite !app_cons, IH. Qed.

Lemma startsWith_app pat rest : Js.startsWith (pat +:+ rest) pat = true.
Proof.
  induction pat as [|c pat IH]; [by destruct rest|].
  rewrite app_cons. simpl. by rewrite decide_True.
Qed.

Lemma substring_app pat rest : Js.substring (String.length pat) (pat +:+ rest) = rest.
Proof. induction pat as [|c pat IH]; [by destruct rest | by rewrite app_cons]. Qed.

Lemma startsWith_inv s pat :
  Js.startsWith s pat = true → s = pat +:+ Js.substring (String.length pat) s.
Proof.
  revert s. induction pat as [|c pat IH]; intros [|d s] Hs; simpl in *; try done.
  case_decide; [|done]. subst d. rewrite app_cons. f_equal. by apply IH.
Qed.

Lemma replace_prefix pat rep rest :
  Js.replace (pat +:+ rest) pat rep = rep +:+ rest.
Proof.
  destruct pat as [|c pat]; [by destruct rest|].
  rewrite app_cons. simpl. rewrite decide_True by done.
  by rewrite startsWith_app, substring_app.
Qed.

Lemma indexOf_ge xs x : -1 ≤ Js.indexOf xs x.
Proof.
  induction xs as [|y ys IH]; simpl; [lia|].
  repeat case_decide; lia.
Qed.

Lemma indexOf_absent xs x : Js.indexOf xs x = -1 ↔ x ∉ xs.
Proof.
  induction xs as [|y ys IH]; simpl.
  - split; [intros _; apply not_elem_of_nil | done].
  - rewrite not_elem_of_cons. pose proof (indexOf_ge ys x).
    destruct (decide (y = x)) as [->|Hne].
    + split; [lia | intros [? _]; congruence].
    + destruct (decide (Js.indexOf ys x = -1)) as [He|Hn].
      * split; [intros _; split; [congruence | by apply IH] | done].
      * split; [lia | intros [_ Hx]; by apply IH in Hx].
Qed.

(** A well-formed id is not empty. *)
Lemma isObjectId_nonempty id : Mongoose.isObjectId id = true → id ≠ EmptyString.
Proof. by intros Hi ->. Qed.

End JsFacts.

(** ** The link renderer *)

(** C4, as the code has it: a link whose rendered text begins with
    [<code>@#] is rendered as that text with the [#] of its opening
    [<code>@#] dropped, followed by one space. The mention stays inside its
    code span; no anchor and no icon is produced, whatever the href and the
    title are. *)
Theorem C4_mention_link_keeps_code_span href title text :
  Js.startsWith text "<code>@#" = true →
  ∃ rest, text = "<code>@#" +:+ rest
          ∧ link href title text = "<code>@" +:+ rest +:+ " ".
Proof.
  intros Hs. apply startsWith_inv in Hs. simpl String.length in Hs.
  exists (Js.substring 8 text). split; [done|].
  generalize dependent (Js.substring 8 text). intros rest ->.
  unfold link. rewrite startsWith_app, replace_prefix.
  by rewrite app_assoc'.
Qed.

Lemma C4_mention_link_witness :
  Js.startsWith "<code>@#alice</code>" "<code>@#" = true
  ∧ ∃ rest, "<code>@#alice</code>" = "<code>@#" +:+ rest
            ∧ link "/team/alice" None "<code>@#alice</code>" = "<code>@" +:+ rest +:+ " ".
Proof.
  split; [reflexivity|].
  apply (C4_mention_link_keeps_code_span "/team/alice" None "<code>@#alice</code>").
  reflexivity.
Defined.

(** The mention link for [@#alice] is not rendered as the plain text
    [@alice ]: the code span is still there. *)
Lemma C4_code_span_not_stripped :
  link "/team/alice" None "<code>@#alice</code>" = "<code>@alice</code> "
  ∧ link "/team/alice" None "<code>@#alice</code>" ≠ "@alice "
  ∧ Js.includes (link "/team/alice" None "<code>@#alice</code>") "<code>" = true
  ∧ Js.includes (link "/team/alice" None "<code>@#alice</code>") "</code>" = true.
Proof. repeat split; [|reflexivity..]. discriminate. Qed.

(** The anchor [link] writes for a link that is no mention. *)
Lemma link_anchor href title text :
  Js.startsWith text "<code>@#" = false →
  ∃ ws1 ws2 ws3 ws4 ws5 ws6 ws7,
    link href title text =
      ws1 +:+ "<a target=" +:+ quoted "_blank" +:+ " href=" +:+ quoted href
          +:+ " rel=" +:+ quoted "noopener noreferrer" +:+ title_attribute title +:+ ">"
      +:+ ws2 +:+ text
      +:+ ws3 +:+ "<i class=" +:+ quoted "material-icons"
          +:+ " style=" +:+ quoted "font-size: 16px; vertical-align: baseline" +:+ ">"
      +:+ ws4 +:+ "launch" +:+ ws5 +:+ "</i>" +:+ ws6 +:+ "</a>" +:+ ws7
    ∧ blank ws1 = true ∧ blank ws2 = true ∧ blank ws3 = true ∧ blank ws4 = true
    ∧ blank ws5 = true ∧ blank ws6 = true ∧ blank ws7 = true.
Proof.
  intros Hs. unfold link. rewrite Hs.
  exists (nl +:+ "      "), (nl +:+ "        "), (nl +:+ "        "),
         (nl +:+ "          "), (nl +:+ "        "), (nl +:+ "      "), (nl +:+ "    ").
  split; [|by repeat split].
  unfold quoted, dq, nl. by rewrite ?app_assoc', ?app_cons, ?app_empty_l.
Qed.

Section RendererFacts.
Context `{Libraries}.

(** C9: the rendering of a content is what [marked] makes of the decoded
    content under options whose link renderer writes, for every link whose
    rendered text does not begin with [<code>@#], an anchor element on the
    given href, with [target="_blank"] and [rel="noopener noreferrer"] (and
    the title attribute when there is a title), whose content is the link
    text followed by the [material-icons] element [launch]; the pieces are
    separated by blanks only. *)
Theorem C9_external_link_anchor content :
  ∃ options,
    markdownToHtml content = marked options (he_decode content)
    ∧ ∀ href title text,
        Js.startsWith text "<code>@#" = false →
        ∃ ws1 ws2 ws3 ws4 ws5 ws6 ws7,
          renderer_link options href title text =
            ws1 +:+ "<a target=" +:+ quoted "_blank" +:+ " href=" +:+ quoted href
                +:+ " rel=" +:+ quoted "noopener noreferrer"
                +:+ title_attribute title +:+ ">"
            +:+ ws2 +:+ text
            +:+ ws3 +:+ "<i class=" +:+ quoted "material-icons"
                +:+ " style=" +:+ quoted "font-size: 16px; vertical-align: baseline"
                +:+ ">"
            +:+ ws4 +:+ "launch" +:+ ws5 +:+ "</i>" +:+ ws6 +:+ "</a>" +:+ ws7
          ∧ blank ws1 = true ∧ blank ws2 = true ∧ blank ws3 = true ∧ blank ws4 = true
          ∧ blank ws5 = true ∧ blank ws6 = true ∧ blank ws7 = true.
Proof.
  eexists. split; [reflexivity|].
  intros href title text Hs. cbn [renderer_link]. by apply link_anchor.
Qed.

End RendererFacts.

Lemma C9_external_link_witness :
  Js.startsWith "link" "<code>@#" = false
  ∧ ∃ options,
      @markdownToHtml sample_libraries "check [link](http://x.com)"
      = @marked sample_libraries options
          (@he_decode sample_libraries "check [link](http://x.com)")
      ∧ ∃ ws1 ws2 ws3 ws4 ws5 ws6 ws7,
          renderer_link options "http://x.com" None "link" =
            ws1 +:+ "<a target=" +:+ quoted "_blank" +:+ " href=" +:+ quoted "http://x.com"
                +:+ " rel=" +:+ quoted "noopener noreferrer"
                +:+ title_attribute None +:+ ">"
            +:+ ws2 +:+ "link"
            +:+ ws3 +:+ "<i class=" +:+ quoted "material-icons"
                +:+ " style=" +:+ quoted "font-size: 16px; vertical-align: baseline"
                +:+ ">"
            +:+ ws4 +:+ "launch" +:+ ws5 +:+ "</i>" +:+ ws6 +:+ "</a>" +:+ ws7
          ∧ blank ws1 = true ∧ blank ws2 = true ∧ blank ws3 = true ∧ blank ws4 = true
          ∧ blank ws5 = true ∧ blank ws6 = true ∧ blank ws7 = true.
Proof.
  split; [reflexivity|].
  destruct (@C9_external_link_anchor sample_libraries "check [link](http://x.com)")
    as (options & Hrender & Hlink).
  exists options. split; [exact Hrender|].
  apply Hlink. reflexivity.
Defined.

(** ** The model operations and [checkPermission] *)

Section MethodFacts.
Context `{Libraries}.

Lemma failing_nil_2 k1 v1 k2 v2 :
  Mongoose.failing [(k1, v1); (k2, v2)] = [] ↔ v1 ≠ EmptyString ∧ v2 ≠ EmptyString.
Proof.
  unfold Mongoose.failing. destruct v1, v2; cbn; split; intros Hx; try done; by destruct_and!.
Qed.

Lemma validate_nil p :
  Mongoose.validate p = []
  ↔ createdUserId p ≠ EmptyString ∧ discussionId p ≠ EmptyString
    ∧ content p ≠ EmptyString ∧ htmlContent p ≠ EmptyString.
Proof.
  unfold Mongoose.validate, Mongoose.failing.
  destruct (createdUserId p), (discussionId p), (content p), (htmlContent p);
    cbn; split; intros Hx; try done; by destruct_and!.
Qed.

(** *** [checkPermission] *)

Lemma checkPermission_bad_data userId discussionId post db :
  userId = EmptyString ∨ discussionId = EmptyString →
  PostClass.checkPermission userId discussionId post db
  = (Throw (Error "Bad data"), db, []).
Proof.
  intros Hor. unfold PostClass.checkPermission.
  assert (negb (Js.truthy userId) || negb (Js.truthy discussionId) = true) as ->; [|done].
  destruct Hor as [-> | ->]; [done|]. apply orb_true_r.
Qed.

Lemma checkPermission_not_author userId discussionId post db :
  userId ≠ EmptyString → discussionId ≠ EmptyString →
  createdUserId post ≠ userId →
  PostClass.checkPermission userId discussionId (Some post) db
  = (Throw (Error "Permission denied"), db, []).
Proof.
  intros Hu%truthy_true Hd%truthy_true Hne. unfold PostClass.checkPermission.
  rewrite Hu, Hd. cbn. by rewrite bool_decide_true.
Qed.

Lemma author_guard userId post :
  is_author userId post →
  match post with
  | Some p => bool_decide (createdUserId p ≠ userId)
  | None => false
  end = false.
Proof.
  intros Ha. destruct post as [p|]; [|done].
  apply bool_decide_eq_false. intros Hne. by apply Hne, Ha.
Qed.

Lemma checkPermission_no_discussion userId discussionId post db :
  userId ≠ EmptyString → discussionId ≠ EmptyString → is_author userId post →
  discussions db !! discussionId = None →
  PostClass.checkPermission userId discussionId post db
  = (Throw (Error "Discussion not found"), db, [Discussion_findById discussionId]).
Proof.
  intros Hu%truthy_true Hd%truthy_true Ha Hnone. unfold PostClass.checkPermission.
  rewrite Hu, Hd. cbn [negb orb].
  rewrite (author_guard _ _ Ha).
  unfold_M. unfold Mongoose.findDiscussion. by rewrite Hnone.
Qed.

Lemma checkPermission_discussion userId discussionId post db discussion :
  userId ≠ EmptyString → discussionId ≠ EmptyString → is_author userId post →
  discussions db !! discussionId = Some discussion →
  PostClass.checkPermission userId discussionId post db
  = if bool_decide (userId ∈ Discussion.memberIds discussion) then
      match teams db !! Discussion.teamId discussion with
      | Some team =>
          if bool_decide (userId ∈ Team.memberIds team) then
            (Ok (team, discussion), db,
             [Discussion_findById discussionId;
              Team_findById (Discussion.teamId discussion)])
          else
            (Throw (Error "Team not found"), db,
             [Discussion_findById discussionId;
              Team_findById (Discussion.teamId discussion)])
      | None =>
          (Throw (Error "Team not found"), db,
           [Discussion_findById discussionId;
            Team_findById (Discussion.teamId discussion)])
      end
    else
      (Throw (Error "Permission denied"), db, [Discussion_findById discussionId]).
Proof.
  intros Hu%truthy_true Hd%truthy_true Ha Hsome. unfold PostClass.checkPermission.
  rewrite Hu, Hd. cbn [negb orb].
  rewrite (author_guard _ _ Ha).
  unfold_M. unfold Mongoose.findDiscussion, Mongoose.findTeam. rewrite Hsome.
  rewrite (bool_decide_ext _ _ (indexOf_absent (Discussion.memberIds discussion) userId)).
  rewrite bool_decide_not.
  destruct (bool_decide (userId ∈ Discussion.memberIds discussion)); [|done].
  cbn [negb]. destruct (teams db !! Discussion.teamId discussion) as [team|]; [|done].
  rewrite (bool_decide_ext _ _ (indexOf_absent (Team.memberIds team) userId)).
  rewrite bool_decide_not.
  by destruct (bool_decide (userId ∈ Team.memberIds team)).
Qed.

(** [checkPermission] only reads. *)
Lemma checkPermission_reads userId discussionId post db :
  (PostClass.checkPermission userId discussionId post db).1.2 = db.
Proof.
  destruct (decide (userId = EmptyString)) as [->|Hu].
  { by rewrite checkPermission_bad_data by auto. }
  destruct (decide (discussionId = EmptyString)) as [->|Hd].
  { by rewrite checkPermission_bad_data by auto. }
  destruct post as [p|].
  - destruct (decide (createdUserId p = userId)) as [He|Hne].
    + destruct (discussions db !! discussionId) as [d|] eqn:Hdisc.
      * rewrite (checkPermission_discussion _ _ _ _ d); auto.
        2:{ intros ? [= <-]. done. }
        repeat case_match; done.
      * rewrite checkPermission_no_discussion; auto. intros ? [= <-]. done.
    + by rewrite checkPermission_not_author.
  - destruct (discussions db !! discussionId) as [d|] eqn:Hdisc.
    + rewrite (checkPermission_discussion _ _ _ _ d); auto; [|done].
      repeat case_match; done.
    + rewrite checkPermission_no_discussion; auto. done.
Qed.

(** When it succeeds, the caller is the author of the post (if one is
    given) and a member of the discussion and of its team. *)
Lemma checkPermission_Ok userId discussionId post db team discussion db' q :
  PostClass.checkPermission userId discussionId post db = (Ok (team, discussion), db', q) →
  userId ≠ EmptyString ∧ discussionId ≠ EmptyString ∧ is_author userId post
  ∧ discussions db !! discussionId = Some discussion
  ∧ userId ∈ Discussion.memberIds discussion
  ∧ teams db !! Discussion.teamId discussion = Some team
  ∧ userId ∈ Team.memberIds team
  ∧ db' = db
  ∧ q = [Discussion_findById discussionId; Team_findById (Discussion.teamId discussion)].
Proof.
  intros Hc.
  destruct (decide (userId = EmptyString)) as [->|Hu].
  { by rewrite checkPermission_bad_data in Hc by auto. }
  destruct (decide (discussionId = EmptyString)) as [->|Hd].
  { by rewrite checkPermission_bad_data in Hc by auto. }
  assert (is_author userId post) as Ha.
  { intros p ->. destruct (decide (createdUserId p = userId)) as [|Hne]; [done|].
    by rewrite checkPermission_not_author in Hc. }
  destruct (discussions db !! discussionId) as [d|] eqn:Hdisc.
  2:{ by rewrite checkPermission_no_discussion in Hc. }
  rewrite (checkPermission_discussion _ _ _ _ d) in Hc by done.
  case_bool_decide as Hm; [|done].
  destruct (teams db !! Discussion.teamId d) as [t|] eqn:Hteam; [|done].
  case_bool_decide as Hm'; [|done].
  by simplify_eq.
Qed.

End MethodFacts.

(** ** The methods, guard by guard *)

Section MethodSteps.
Context `{Libraries}.

Lemma add_bad_data now userId discussionId db :
  PostClass.add now EmptyString userId discussionId db = (Throw (Error "Bad data"), db, []).
Proof. reflexivity. Qed.

Lemma add_create now content userId discussionId db :
  content ≠ EmptyString →
  PostClass.add now content userId discussionId db
  = match Mongoose.validate (added now content userId discussionId) with
    | [] => let id := fresh (dom (posts db)) in
            (Ok (id, added now content userId discussionId),
             set_posts db (<[id := added now content userId discussionId]> (posts db)),
             [Post_create])
    | paths => (Throw (ValidationError paths), db, [Post_create])
    end.
Proof.
  intros Hc%truthy_true. unfold PostClass.add. rewrite Hc. cbn [negb].
  unfold_M. unfold Mongoose.create. fold (added now content userId discussionId).
  by destruct (Mongoose.validate _).
Qed.

Lemma edit_bad_data now content userId id db :
  content = EmptyString ∨ id = EmptyString →
  PostClass.edit now content userId id db = (Throw (Error "Bad data"), db, []).
Proof.
  intros Hor. unfold PostClass.edit.
  assert (negb (Js.truthy content) || negb (Js.truthy id) = true) as ->; [|done].
  destruct Hor as [-> | ->]; [done|]. apply orb_true_r.
Qed.

Lemma edit_missing now content userId id db :
  content ≠ EmptyString → id ≠ EmptyString → posts db !! id = None →
  PostClass.edit now content userId id db
  = (Throw (TypeError "discussionId"), db, [Post_findById id]).
Proof.
  intros Hc%truthy_true Hi%truthy_true Hnone. unfold PostClass.edit.
  rewrite Hc, Hi. cbn [negb orb]. unfold_M. unfold Mongoose.findById.
  by rewrite Hnone.
Qed.

Lemma edit_found now content userId id db post :
  content ≠ EmptyString → id ≠ EmptyString → posts db !! id = Some post →
  PostClass.edit now content userId id db
  = match PostClass.checkPermission userId (discussionId post) (Some post) db with
    | (Ok _, db1, q1) =>
        match Mongoose.findOneAndUpdate id content (markdownToHtml content) true now db1 with
        | (r, db2, q2) => (r, db2, Post_findById id :: q1 ++ q2)
        end
    | (Throw e, db1, q1) => (Throw e, db1, Post_findById id :: q1)
    end.
Proof.
  intros Hc%truthy_true Hi%truthy_true Hsome. unfold PostClass.edit.
  rewrite Hc, Hi. cbn [negb orb]. unfold_M. unfold Mongoose.findById at 1.
  rewrite Hsome.
  destruct (PostClass.checkPermission _ _ _ _) as [[[a|e] db1] q1]; [|done].
  destruct (Mongoose.findOneAndUpdate _ _ _ _ _ _) as [[r db2] q2].
  destruct r; cbn; by rewrite ?app_nil_r.
Qed.

Lemma delete_bad_data userId db :
  PostClass.delete userId EmptyString db = (Throw (Error "Bad data"), db, []).
Proof. reflexivity. Qed.

Lemma delete_missing userId id db :
  id ≠ EmptyString → posts db !! id = None →
  PostClass.delete userId id db
  = (Throw (TypeError "discussionId"), db, [Post_findById id]).
Proof.
  intros Hi%truthy_true Hnone. unfold PostClass.delete.
  rewrite Hi. cbn [negb]. unfold_M. unfold Mongoose.findById.
  by rewrite Hnone.
Qed.

Lemma delete_found userId id db post :
  id ≠ EmptyString → posts db !! id = Some post →
  PostClass.delete userId id db
  = match PostClass.checkPermission userId (discussionId post) (Some post) db with
    | (Ok _, db1, q1) =>
        (Ok (), set_posts db1 (delete id (posts db1)),
         Post_findById id :: q1 ++ [Post_deleteOne id])
    | (Throw e, db1, q1) => (Throw e, db1, Post_findById id :: q1)
    end.
Proof.
  intros Hi%truthy_true Hsome. unfold PostClass.delete.
  rewrite Hi. cbn [negb]. unfold_M. unfold Mongoose.findById at 1.
  rewrite Hsome.
  by destruct (PostClass.checkPermission _ _ _ _) as [[[a|e] db1] q1].
Qed.

(** A refused [edit] or [delete]: both stop at the same failing guard of
    [checkPermission], after the one lookup of the post. *)
Lemma refused now content userId id db post e q :
  content ≠ EmptyString → id ≠ EmptyString → posts db !! id = Some post →
  PostClass.checkPermission userId (discussionId post) (Some post) db = (Throw e, db, q) →
  PostClass.edit now content userId id db = (Throw e, db, Post_findById id :: q)
  ∧ PostClass.delete userId id db = (Throw e, db, Post_findById id :: q).
Proof.
  intros Hc Hi Hsome Hcheck.
  by rewrite (edit_found _ _ _ _ _ post), (delete_found _ _ _ post), Hcheck.
Qed.

(** What a successful [edit] has done. *)
Lemma edit_Ok now content userId id db r db' q :
  PostClass.edit now content userId id db = (Ok r, db', q) →
  ∃ old team discussion,
    content ≠ EmptyString ∧ id ≠ EmptyString ∧ markdownToHtml content ≠ EmptyString
    ∧ posts db !! id = Some old
    ∧ PostClass.checkPermission userId (discussionId old) (Some old) db
      = (Ok (team, discussion), db,
         [Discussion_findById (discussionId old);
          Team_findById (Discussion.teamId discussion)])
    ∧ r = Some (id, edited old now content)
    ∧ db' = set_posts db (<[id := edited old now content]> (posts db)).
Proof.
  intros He.
  destruct (decide (content = EmptyString)) as [->|Hc].
  { by rewrite edit_bad_data in He by auto. }
  destruct (decide (id = EmptyString)) as [->|Hi].
  { by rewrite edit_bad_data in He by auto. }
  destruct (posts db !! id) as [old|] eqn:Hold.
  2:{ by rewrite edit_missing in He. }
  rewrite (edit_found _ _ _ _ _ old) in He by done.
  destruct (PostClass.checkPermission _ _ _ _) as [[[[team discussion]|e] db1] q1] eqn:Hcheck;
    [|done].
  apply checkPermission_Ok in Hcheck as Hfacts.
  destruct Hfacts as (_ & _ & _ & _ & _ & _ & _ & -> & ->).
  unfold Mongoose.findOneAndUpdate in He.
  destruct (Mongoose.failing _) eqn:Hf; [|done].
  apply failing_nil_2 in Hf as [_ Hh].
  rewrite Hold in He. fold (edited old now content) in He.
  exists old, team, discussion. by simplify_eq.
Qed.

End MethodSteps.

(** ** The claims about the methods *)

Global Instance createdAt_le_total : Total Mongoose.createdAt_le.
Proof. intros a b. unfold Mongoose.createdAt_le. lia. Qed.

Global Instance createdAt_le_trans : Transitive Mongoose.createdAt_le.
Proof. intros a b c. unfold Mongoose.createdAt_le. lia. Qed.

Section Claims.
Context `{Libraries}.

(** C1, as the code has it: [edit] (with a non-empty content) and
    [delete], called with a non-empty id and user id on a stored post that
    is valid for the schema, fail with [Permission denied] when
    the caller is not the author of the post, and when the caller is the
    author but not in the [memberIds] of the post's discussion. When the
    caller is the author and a member of the discussion, but the team of
    the discussion is missing or does not list the caller, they fail with
    [Team not found], which is an error of kind [NotFound]. The database
    is left as it was in each case. *)
Theorem C1_edit_delete_refused now content userId id db post :
  content ≠ EmptyString → id ≠ EmptyString → userId ≠ EmptyString →
  posts db !! id = Some post → Mongoose.validate post = [] →
  (createdUserId post ≠ userId →
     both_throw now content userId id db (Error "Permission denied") [Post_findById id])
  ∧ (createdUserId post = userId →
     ∀ discussion, discussions db !! discussionId post = Some discussion →
       (userId ∉ Discussion.memberIds discussion →
          both_throw now content userId id db (Error "Permission denied")
            [Post_findById id; Discussion_findById (discussionId post)])
       ∧ (userId ∈ Discussion.memberIds discussion →
          (∀ team, teams db !! Discussion.teamId discussion = Some team →
                   userId ∉ Team.memberIds team) →
          both_throw now content userId id db (Error "Team not found")
            [Post_findById id; Discussion_findById (discussionId post);
             Team_findById (Discussion.teamId discussion)]))
  ∧ kind_of (Error "Permission denied") = PermissionDenied
  ∧ kind_of (Error "Team not found") = NotFound.
Proof.
  intros Hc Hi Hu Hsome (_ & Hd & _)%validate_nil. split; [|split; [|done]].
  - intros Hne. apply (refused _ _ _ _ _ post); try done.
    by apply checkPermission_not_author.
  - intros Heq discussion Hdisc.
    assert (is_author userId (Some post)) as Ha by (by intros ? [= <-]).
    pose proof (checkPermission_discussion userId (discussionId post) (Some post)
                  db discussion Hu Hd Ha Hdisc) as Hcheck.
    split.
    + intros Hnot. apply (refused _ _ _ _ _ post); try done.
      by rewrite Hcheck, bool_decide_false.
    + intros Hin Hteam. apply (refused _ _ _ _ _ post); try done.
      rewrite Hcheck, bool_decide_true by done.
      destruct (teams db !! Discussion.teamId discussion) as [team|]; [|done].
      by rewrite bool_decide_false by auto.
Qed.

(** C10, as the code has it: when the fetched post exists (a post valid
    for the schema), and the user id is not empty and differs from the
    post's [createdUserId], [edit] (with a non-empty content and id)
    and [delete] (with a non-empty id) fail with [Permission denied] after
    the single lookup of the post: no discussion and no team is looked
    up, so it does not matter whether they exist. *)
Theorem C10_ownership_before_lookups now content userId id db post :
  id ≠ EmptyString → userId ≠ EmptyString →
  posts db !! id = Some post → Mongoose.validate post = [] →
  createdUserId post ≠ userId →
  (content ≠ EmptyString →
     PostClass.edit now content userId id db
     = (Throw (Error "Permission denied"), db, [Post_findById id]))
  ∧ PostClass.delete userId id db
    = (Throw (Error "Permission denied"), db, [Post_findById id])
  ∧ kind_of (Error "Permission denied") = PermissionDenied.
Proof.
  intros Hi Hu Hsome (_ & Hd & _)%validate_nil Hne.
  pose proof (checkPermission_not_author userId (discussionId post) post db Hu Hd Hne)
    as Hcheck.
  split; [|split; [|done]].
  - intros Hc. by rewrite (edit_found _ _ _ _ _ post), Hcheck.
  - by rewrite (delete_found _ _ _ post), Hcheck.
Qed.

(** C6, as the code has it: with an id that is a well-formed [ObjectId]
    string and matches no stored post, [delete], and [edit] when its
    content is not empty, throw the [TypeError] of reading [discussionId]
    of [null] (an error of kind [NotFound]) right after the lookup of the
    post, before the permission check, and leave the database as it
    was. *)
Theorem C6_missing_post now content userId id db :
  Mongoose.isObjectId id = true → posts db !! id = None →
  (content ≠ EmptyString →
     PostClass.edit now content userId id db
     = (Throw (TypeError "discussionId"), db, [Post_findById id]))
  ∧ PostClass.delete userId id db
    = (Throw (TypeError "discussionId"), db, [Post_findById id])
  ∧ kind_of (TypeError "discussionId") = NotFound.
Proof.
  intros Hi%isObjectId_nonempty Hnone. split; [|split; [|done]].
  - intros Hc. by apply edit_missing.
  - by apply delete_missing.
Qed.

(** C5: [add] with an empty content throws [Bad data], an error of kind
    [InvalidInput], without any database call, and the database is left as
    it was. *)
Theorem C5_add_empty_content now userId discussionId db :
  PostClass.add now EmptyString userId discussionId db
  = (Throw (Error "Bad data"), db, [])
  ∧ kind_of (Error "Bad data") = InvalidInput.
Proof. split; [apply add_bad_data | done]. Qed.

(** C3, as the code has it: [add] with a non-empty content makes one
    database call, the creation of the post: it looks up no discussion and
    no team, and never fails with an error of kind [PermissionDenied] or
    [NotFound]. It creates the post, under a new id, whenever the user id,
    the discussion id and the rendered HTML are not empty; when one of
    these required fields is empty the creation is rejected with a
    validation error and the database is left as it was. *)
Theorem C3_add_without_permission_check now content userId discussionId db :
  content ≠ EmptyString →
  (∃ r db', PostClass.add now content userId discussionId db = (r, db', [Post_create])
            ∧ ∀ e, r = Throw e →
                   kind_of e ≠ PermissionDenied ∧ kind_of e ≠ NotFound ∧ db' = db)
  ∧ (userId ≠ EmptyString → discussionId ≠ EmptyString →
     markdownToHtml content ≠ EmptyString →
     posts db !! fresh (dom (posts db)) = None
     ∧ PostClass.add now content userId discussionId db
       = (Ok (fresh (dom (posts db)), added now content userId discussionId),
          set_posts db (<[fresh (dom (posts db)) := added now content userId discussionId]>
                          (posts db)),
          [Post_create]))
  ∧ (userId = EmptyString ∨ discussionId = EmptyString
     ∨ markdownToHtml content = EmptyString →
     ∃ paths, PostClass.add now content userId discussionId db
              = (Throw (ValidationError paths), db, [Post_create])).
Proof.
  intros Hc. rewrite add_create by done.
  pose proof (validate_nil (added now content userId discussionId)) as Hv.
  cbn [createdUserId PostDocument.discussionId PostDocument.content htmlContent added] in Hv.
  split; [|split].
  - destruct (Mongoose.validate _) as [|path paths]; eexists _, _; (split; [done|]).
    + by intros e.
    + by intros e [= <-].
  - intros Hu Hd Hh. split; [apply not_elem_of_dom, is_fresh|].
    destruct (Mongoose.validate _) as [|path paths]; [done|].
    destruct Hv as [_ Hv]. by discriminate Hv.
  - intros Hor. destruct (Mongoose.validate _) as [|path paths]; [|by eexists].
    destruct Hv as [Hv _]. destruct (Hv eq_refl) as (? & ? & ? & ?).
    by destruct Hor as [?|[?|?]].
Qed.

End Claims.

Section StoreClaims.
Context `{Libraries}.

(** What a successful [add] has done. *)
Lemma add_Ok now content userId discussionId db doc db' q :
  PostClass.add now content userId discussionId db = (Ok doc, db', q) →
  content ≠ EmptyString
  ∧ posts db !! doc.1 = None
  ∧ doc.2 = added now content userId discussionId
  ∧ db' = set_posts db (<[doc.1 := doc.2]> (posts db)).
Proof.
  intros Ha.
  destruct (decide (content = EmptyString)) as [->|Hc].
  { by rewrite add_bad_data in Ha. }
  rewrite add_create in Ha by done.
  destruct (Mongoose.validate _); [|done].
  cbv zeta in Ha. injection Ha as <- <- <-. cbn.
  split_and!; try done. apply not_elem_of_dom, is_fresh.
Qed.

(** What a successful [delete] has done. *)
Lemma delete_Ok userId id db u db' q :
  PostClass.delete userId id db = (Ok u, db', q) →
  ∃ old, posts db !! id = Some old ∧ createdUserId old = userId
         ∧ db' = set_posts db (delete id (posts db)).
Proof.
  intros Hd.
  destruct (decide (id = EmptyString)) as [->|Hi].
  { by rewrite delete_bad_data in Hd. }
  destruct (posts db !! id) as [old|] eqn:Hold.
  2:{ by rewrite delete_missing in Hd. }
  rewrite (delete_found _ _ _ old) in Hd by done.
  destruct (PostClass.checkPermission _ _ _ _) as [[[[team discussion]|e] db1] q1] eqn:Hcheck;
    [|done].
  apply checkPermission_Ok in Hcheck as (_ & _ & Ha & _ & _ & _ & _ & -> & _).
  exists old. split_and!; [done | by apply Ha | by simplify_eq].
Qed.

(** [edit] succeeds for the author of a stored post who is a member of its
    discussion and of the discussion's team, when the content and its
    rendering are not empty. *)
Lemma edit_succeeds now content userId id db old discussion team :
  content ≠ EmptyString → id ≠ EmptyString → markdownToHtml content ≠ EmptyString →
  userId ≠ EmptyString →
  posts db !! id = Some old → createdUserId old = userId →
  discussionId old ≠ EmptyString →
  discussions db !! discussionId old = Some discussion →
  userId ∈ Discussion.memberIds discussion →
  teams db !! Discussion.teamId discussion = Some team →
  userId ∈ Team.memberIds team →
  PostClass.edit now content userId id db
  = (Ok (Some (id, edited old now content)),
     set_posts db (<[id := edited old now content]> (posts db)),
     [Post_findById id; Discussion_findById (discussionId old);
      Team_findById (Discussion.teamId discussion); Post_findOneAndUpdate id]).
Proof.
  intros Hc Hi Hh Hu Hold Ha Hd Hdisc Hm Hteam Hm'.
  rewrite (edit_found _ _ _ _ _ old) by done.
  rewrite (checkPermission_discussion _ _ _ _ discussion) by (done || by intros ? [= <-]).
  rewrite bool_decide_true, Hteam, bool_decide_true by done.
  unfold Mongoose.findOneAndUpdate.
  destruct (Mongoose.failing _) eqn:Hf.
  - by rewrite Hold.
  - assert (Mongoose.failing [("content", content); ("htmlContent", markdownToHtml content)]%string
            = []) as Hnil by (by apply failing_nil_2).
    congruence.
Qed.

(** In every database reached from an empty collection, each stored
    [htmlContent] is the rendering of the stored [content]. *)
Lemma reachable_rendered db :
  reachable db → map_Forall (λ _, rendered) (posts db).
Proof.
  induction 1 as [db Hempty | db db' _ IH Hstep].
  - rewrite Hempty. apply map_Forall_empty.
  - destruct Hstep as [now content userId discussionId db [id p] db' q Ha
                      | now content userId id db r db' q He
                      | userId id db u db' q Hd].
    + apply add_Ok in Ha as (_ & _ & Hp & ->). cbn in *. subst p.
      by apply map_Forall_insert_2.
    + apply edit_Ok in He as (old & _ & _ & _ & _ & _ & _ & _ & _ & ->).
      by apply map_Forall_insert_2.
    + apply delete_Ok in Hd as (old & _ & _ & ->). by apply map_Forall_delete.
Qed.

(** C2: right after a successful [add] or [edit], the post that was
    created or updated is in the store with an [htmlContent] that is the
    rendering of its [content]; and when this held of every stored post
    before the call (as it does in every reachable database, see
    [reachable_rendered]), it holds of every stored post after it. *)
Theorem C2_htmlContent_is_rendered_content db :
  (∀ now content userId discussionId doc db' q,
     PostClass.add now content userId discussionId db = (Ok doc, db', q) →
     posts db' !! doc.1 = Some doc.2 ∧ rendered doc.2
     ∧ (map_Forall (λ _, rendered) (posts db) → map_Forall (λ _, rendered) (posts db')))
  ∧ (∀ now content userId id r db' q,
       PostClass.edit now content userId id db = (Ok r, db', q) →
       ∃ p, r = Some (id, p) ∧ posts db' !! id = Some p ∧ rendered p
            ∧ (map_Forall (λ _, rendered) (posts db)
               → map_Forall (λ _, rendered) (posts db'))).
Proof.
  split.
  - intros now content userId discussionId [id p] db' q Ha.
    apply add_Ok in Ha as (_ & _ & Hp & ->). cbn in *. subst p.
    assert (rendered (added now content userId discussionId)) as Hr by done.
    split_and!; [apply lookup_insert_eq | done |].
    intros Hall. by apply map_Forall_insert_2.
  - intros now content userId id r db' q He.
    apply edit_Ok in He as (old & _ & _ & _ & _ & _ & _ & _ & -> & ->).
    assert (rendered (edited old now content)) as Hr by done.
    eexists. split_and!; [done | apply lookup_insert_eq | done |].
    intros Hall. by apply map_Forall_insert_2.
Qed.

(** C8: a successful [edit] returns and stores, under the same id, a post
    with [isEdited = true] and [lastUpdatedAt] set to the time of the
    call, whatever these fields were before, with the new content and
    its rendering; [createdUserId], [discussionId] and [createdAt] are
    those of the post as it was, every other post is as it was, and so
    are the discussions and the teams. *)
Theorem C8_edit_frame now content userId id db r db' q :
  PostClass.edit now content userId id db = (Ok r, db', q) →
  ∃ old new,
    posts db !! id = Some old ∧ r = Some (id, new) ∧ posts db' !! id = Some new
    ∧ isEdited new = true ∧ lastUpdatedAt new = Some now
    ∧ PostDocument.content new = content ∧ htmlContent new = markdownToHtml content
    ∧ createdUserId new = createdUserId old
    ∧ discussionId new = discussionId old
    ∧ createdAt new = createdAt old
    ∧ (∀ id', id' ≠ id → posts db' !! id' = posts db !! id')
    ∧ dom (posts db') = dom (posts db)
    ∧ discussions db' = discussions db ∧ teams db' = teams db.
Proof.
  intros He.
  apply edit_Ok in He as (old & _ & _ & _ & _ & _ & Hold & _ & -> & ->).
  exists old, (edited old now content). cbn.
  split_and!; try done.
  - apply lookup_insert_eq.
  - intros id' Hne. by apply lookup_insert_ne.
  - by apply dom_insert_lookup_L.
Qed.

(** C7: a successful [getList] returns each stored post of the given
    discussion once, and nothing else, in ascending order of [createdAt];
    it changes nothing. *)
Theorem C7_getList_discussion_posts_sorted userId discussionId0 db l db' q :
  PostClass.getList userId discussionId0 db = (Ok l, db', q) →
  (∀ id p, (id, p) ∈ l ↔ posts db !! id = Some p ∧ discussionId p = discussionId0)
  ∧ NoDup l
  ∧ StronglySorted (λ a b : string * PostDocument.t, createdAt a.2 ≤ createdAt b.2) l
  ∧ db' = db.
Proof.
  unfold PostClass.getList. unfold_M. intros Hg.
  destruct (PostClass.checkPermission _ _ _ _) as [[[[team discussion]|e] db1] q1] eqn:Hcheck;
    [|done].
  apply checkPermission_Ok in Hcheck as (_ & _ & _ & _ & _ & _ & _ & -> & _).
  unfold Mongoose.find_sort in Hg. simplify_eq.
  split_and!; [| | |done].
  - intros id p. rewrite merge_sort_Permutation, list_elem_of_filter.
    rewrite elem_of_map_to_list. cbn. tauto.
  - rewrite merge_sort_Permutation. apply NoDup_filter, NoDup_map_to_list.
  - apply (StronglySorted_merge_sort Mongoose.createdAt_le).
Qed.

End StoreClaims.

(** ** Who may call what *)

Section Authorization.
Context `{Libraries}.

Lemma member_of_set_posts db ps userId discussionId0 :
  member_of (set_posts db ps) userId discussionId0 ↔ member_of db userId discussionId0.
Proof. done. Qed.

Lemma checkPermission_succeeds userId discussionId0 post db :
  member_of db userId discussionId0 → is_author userId post →
  ∃ team discussion,
    PostClass.checkPermission userId discussionId0 post db
    = (Ok (team, discussion), db,
       [Discussion_findById discussionId0; Team_findById (Discussion.teamId discussion)]).
Proof.
  intros (Hu & Hd & Hm) Ha.
  destruct (discussions db !! discussionId0) as [discussion|] eqn:Hdisc; [|done].
  destruct Hm as [Hm Ht].
  destruct (teams db !! Discussion.teamId discussion) as [team|] eqn:Hteam; [|done].
  exists team, discussion.
  rewrite (checkPermission_discussion _ _ _ _ discussion) by done.
  by rewrite bool_decide_true, Hteam, bool_decide_true.
Qed.

Lemma checkPermission_member userId discussionId0 post db r db' q :
  PostClass.checkPermission userId discussionId0 post db = (Ok r, db', q) →
  member_of db userId discussionId0 ∧ is_author userId post ∧ db' = db.
Proof.
  destruct r as [team discussion]. intros Hc.
  apply checkPermission_Ok in Hc as (Hu & Hd & Ha & Hdisc & Hm & Hteam & Hm' & -> & _).
  split_and!; try done. unfold member_of. by rewrite Hdisc, Hteam.
Qed.

Lemma checkPermission_Throw userId discussionId0 post db e db' q :
  PostClass.checkPermission userId discussionId0 post db = (Throw e, db', q) →
  db' = db ∧ e ∈ permission_errors ∧ Forall (λ c, on_posts c = false) q.
Proof.
  intros Hc. unfold permission_errors.
  destruct (decide (userId = EmptyString)) as [->|Hu].
  { rewrite checkPermission_bad_data in Hc by auto. simplify_eq.
    split_and!; [done | in_list | done]. }
  destruct (decide (discussionId0 = EmptyString)) as [->|Hd].
  { rewrite checkPermission_bad_data in Hc by auto. simplify_eq.
    split_and!; [done | in_list | done]. }
  assert (is_author userId post ∨ ∃ p, post = Some p ∧ createdUserId p ≠ userId)
    as [Ha | (p & -> & Hne)].
  { destruct post as [p|]; [|by left].
    destruct (decide (createdUserId p = userId)); [left | right; eauto].
    by intros ? [= <-]. }
  - destruct (discussions db !! discussionId0) as [d|] eqn:Hdisc.
    + rewrite (checkPermission_discussion _ _ _ _ d) in Hc by done.
      repeat case_match; simplify_eq;
        (split_and!; [done | in_list | by repeat constructor]).
    + rewrite checkPermission_no_discussion in Hc by done. simplify_eq.
      split_and!; [done | in_list | by repeat constructor].
  - rewrite checkPermission_not_author in Hc by done.
    simplify_eq. split_and!; [done | in_list | done].
Qed.

(** X18: [checkPermission] succeeds exactly when the caller is a member of
    the discussion and of its team and, if a post is given, its author; it
    then returns the team and the discussion it found, and has changed
    nothing. *)
Theorem checkPermission_succeeds_iff userId discussionId0 post db :
  (member_of db userId discussionId0 ∧ is_author userId post)
  ↔ ∃ team discussion q,
      PostClass.checkPermission userId discussionId0 post db
      = (Ok (team, discussion), db, q)
      ∧ discussions db !! discussionId0 = Some discussion
      ∧ teams db !! Discussion.teamId discussion = Some team.
Proof.
  split.
  - intros [Hm Ha].
    destruct (checkPermission_succeeds _ _ _ _ Hm Ha) as (team & discussion & Hc).
    exists team, discussion. eexists. split; [exact Hc|].
    by apply checkPermission_Ok in Hc as (_ & _ & _ & ? & _ & ? & _).
  - intros (team & discussion & q & Hc & _).
    by apply checkPermission_member in Hc as (? & ? & _).
Qed.

Lemma getList_run userId discussionId0 db :
  PostClass.getList userId discussionId0 db
  = match PostClass.checkPermission userId discussionId0 None db with
    | (Ok _, db1, q1) =>
        (Ok (listing db1 discussionId0), db1, (q1 ++ [Post_find discussionId0])%list)
    | (Throw e, db1, q1) => (Throw e, db1, q1)
    end.
Proof.
  unfold PostClass.getList. unfold_M.
  by destruct (PostClass.checkPermission _ _ _ _) as [[[a|e] db1] q1].
Qed.

Lemma getList_Ok userId discussionId0 db l db' q :
  PostClass.getList userId discussionId0 db = (Ok l, db', q) →
  member_of db userId discussionId0 ∧ l = listing db discussionId0 ∧ db' = db.
Proof.
  rewrite getList_run.
  destruct (PostClass.checkPermission _ _ _ _) as [[[a|e] db1] q1] eqn:Hc; [|done].
  apply checkPermission_member in Hc as (Hm & _ & ->). intros [= <- <- _]. done.
Qed.

Lemma getList_member userId discussionId0 db :
  member_of db userId discussionId0 →
  ∃ q, PostClass.getList userId discussionId0 db = (Ok (listing db discussionId0), db, q).
Proof.
  intros Hm. rewrite getList_run.
  destruct (checkPermission_succeeds userId discussionId0 None db Hm) as (t & d & ->);
    [done|]. by eexists.
Qed.

Lemma elem_of_listing db discussionId0 id p :
  (id, p) ∈ listing db discussionId0
  ↔ posts db !! id = Some p ∧ discussionId p = discussionId0.
Proof.
  unfold listing. rewrite merge_sort_Permutation, list_elem_of_filter.
  rewrite elem_of_map_to_list. cbn. tauto.
Qed.

(** X1: [getList] succeeds exactly for a caller with a non-empty id who is
    listed in the [memberIds] of the existing discussion and of its existing
    team; whether the caller wrote any post plays no part. *)
Theorem getList_succeeds_iff_member userId discussionId0 db :
  member_of db userId discussionId0
  ↔ ∃ l db' q, PostClass.getList userId discussionId0 db = (Ok l, db', q).
Proof.
  split.
  - intros Hm. destruct (getList_member _ _ _ Hm) as [q Hq]. eauto.
  - intros (l & db' & q & Hg). by apply getList_Ok in Hg as (? & _).
Qed.

(** X2: a [getList] that fails has not read the [Post] collection: it
    throws one of the four errors of [checkPermission], after lookups of
    the discussion and the team at most, and leaves the database as it
    was. *)
Theorem getList_refused_reads_no_post userId discussionId0 db e db' q :
  PostClass.getList userId discussionId0 db = (Throw e, db', q) →
  db' = db ∧ e ∈ permission_errors ∧ Forall (λ c, on_posts c = false) q.
Proof.
  rewrite getList_run.
  destruct (PostClass.checkPermission _ _ _ _) as [[[a|e1] db1] q1] eqn:Hc; [done|].
  intros [= <- <- <-]. by apply checkPermission_Throw in Hc.
Qed.

(** What a successful [delete] was allowed by. *)
Lemma delete_Ok_member userId id db u db' q :
  PostClass.delete userId id db = (Ok u, db', q) →
  id ≠ EmptyString
  ∧ ∃ old, posts db !! id = Some old ∧ createdUserId old = userId
           ∧ member_of db userId (discussionId old)
           ∧ db' = set_posts db (delete id (posts db)).
Proof.
  intros Hd.
  destruct (decide (id = EmptyString)) as [->|Hi].
  { by rewrite delete_bad_data in Hd. }
  destruct (posts db !! id) as [old|] eqn:Hold.
  2:{ by rewrite delete_missing in Hd. }
  rewrite (delete_found _ _ _ old) in Hd by done.
  destruct (PostClass.checkPermission _ _ _ _) as [[[a|e] db1] q1] eqn:Hc; [|done].
  apply checkPermission_member in Hc as (Hm & Ha & ->).
  split; [done|]. exists old. split_and!; [done | by apply Ha | done | by simplify_eq].
Qed.

Lemma delete_member userId id db old :
  id ≠ EmptyString → posts db !! id = Some old → createdUserId old = userId →
  member_of db userId (discussionId old) →
  ∃ q, PostClass.delete userId id db
       = (Ok (), set_posts db (delete id (posts db)), q).
Proof.
  intros Hi Hold Ha Hm. rewrite (delete_found _ _ _ old) by done.
  destruct (checkPermission_succeeds userId (discussionId old) (Some old) db Hm)
    as (t & d & ->); [by intros ? [= <-] |]. by eexists.
Qed.

(** X3: [delete] succeeds exactly when the id is not empty and is that of
    a stored post whose [createdUserId] is the caller, the caller being a
    member of the post's discussion and of its team. *)
Theorem delete_succeeds_iff_author_member userId id db :
  (id ≠ EmptyString
   ∧ ∃ old, posts db !! id = Some old ∧ createdUserId old = userId
            ∧ member_of db userId (discussionId old))
  ↔ ∃ u db' q, PostClass.delete userId id db = (Ok u, db', q).
Proof.
  split.
  - intros (Hi & old & Hold & Ha & Hm).
    destruct (delete_member _ _ _ _ Hi Hold Ha Hm) as [q Hq]. eauto.
  - intros (u & db' & q & Hd).
    apply delete_Ok_member in Hd as (Hi & old & Hold & Ha & Hm & _). eauto.
Qed.

Lemma edit_only_by_author_member_aux now content userId id db r db' q :
  PostClass.edit now content userId id db = (Ok r, db', q) →
  content ≠ EmptyString ∧ id ≠ EmptyString
  ∧ ∃ old, posts db !! id = Some old ∧ createdUserId old = userId
           ∧ member_of db userId (discussionId old).
Proof.
  intros He.
  apply edit_Ok in He as (old & team & discussion & Hc & Hi & _ & Hold & Hcheck & _).
  apply checkPermission_member in Hcheck as (Hm & Ha & _).
  split_and!; try done. exists old. split_and!; [done | by apply Ha | done].
Qed.

(** X4: a successful [edit] was called with a non-empty content and id by
    the author of the stored post, a member of the post's discussion and of
    its team. *)
Theorem edit_only_by_author_member now content userId id db r db' q :
  PostClass.edit now content userId id db = (Ok r, db', q) →
  content ≠ EmptyString ∧ id ≠ EmptyString
  ∧ ∃ old, posts db !! id = Some old ∧ createdUserId old = userId
           ∧ member_of db userId (discussionId old).
Proof. apply edit_only_by_author_member_aux. Qed.

Lemma edit_member now content userId id db old :
  content ≠ EmptyString → id ≠ EmptyString → markdownToHtml content ≠ EmptyString →
  posts db !! id = Some old → createdUserId old = userId →
  member_of db userId (discussionId old) →
  ∃ q, PostClass.edit now content userId id db
       = (Ok (Some (id, edited old now content)),
          set_posts db (<[id := edited old now content]> (posts db)), q).
Proof.
  intros Hc Hi Hh Hold Ha (Hu & Hd & Hm).
  destruct (discussions db !! discussionId old) as [discussion|] eqn:Hdisc; [|done].
  destruct Hm as [Hm Ht].
  destruct (teams db !! Discussion.teamId discussion) as [team|] eqn:Hteam; [|done].
  eexists. by apply (edit_succeeds _ _ _ _ _ old discussion team).
Qed.

(** X5: [edit] succeeds for the author of a stored post who is a member of
    the post's discussion and of its team, when the id, the content and the
    rendering of the content are not empty: it returns the updated post
    and stores it under the same id. *)
Theorem edit_by_author_member_succeeds now content userId id db old :
  content ≠ EmptyString → id ≠ EmptyString → markdownToHtml content ≠ EmptyString →
  posts db !! id = Some old → createdUserId old = userId →
  member_of db userId (discussionId old) →
  ∃ q, PostClass.edit now content userId id db
       = (Ok (Some (id, edited old now content)),
          set_posts db (<[id := edited old now content]> (posts db)), q).
Proof. apply edit_member. Qed.

Lemma add_Throw now content userId discussionId0 db e db' q :
  PostClass.add now content userId discussionId0 db = (Throw e, db', q) → db' = db.
Proof.
  destruct (decide (content = EmptyString)) as [->|Hc].
  { rewrite add_bad_data. by intros [= _ <- _]. }
  rewrite add_create by done.
  destruct (Mongoose.validate _); [done|]. by intros [= _ <- _].
Qed.

Lemma edit_Throw now content userId id db e db' q :
  PostClass.edit now content userId id db = (Throw e, db', q) → db' = db.
Proof.
  destruct (decide (content = EmptyString)) as [->|Hc].
  { rewrite edit_bad_data by auto. by intros [= _ <- _]. }
  destruct (decide (id = EmptyString)) as [->|Hi].
  { rewrite edit_bad_data by auto. by intros [= _ <- _]. }
  destruct (posts db !! id) as [old|] eqn:Hold.
  2:{ rewrite edit_missing by done. by intros [= _ <- _]. }
  rewrite (edit_found _ _ _ _ _ old) by done.
  destruct (PostClass.checkPermission _ _ _ _) as [[[a|e1] db1] q1] eqn:Hcheck.
  - apply checkPermission_member in Hcheck as (_ & _ & ->).
    unfold Mongoose.findOneAndUpdate.
    destruct (Mongoose.failing _); [by rewrite Hold | by intros [= _ <- _]].
  - apply checkPermission_Throw in Hcheck as (-> & _). by intros [= _ <- _].
Qed.

Lemma delete_Throw userId id db e db' q :
  PostClass.delete userId id db = (Throw e, db', q) → db' = db.
Proof.
  destruct (decide (id = EmptyString)) as [->|Hi].
  { rewrite delete_bad_data. by intros [= _ <- _]. }
  destruct (posts db !! id) as [old|] eqn:Hold.
  2:{ rewrite delete_missing by done. by intros [= _ <- _]. }
  rewrite (delete_found _ _ _ old) by done.
  destruct (PostClass.checkPermission _ _ _ _) as [[[a|e1] db1] q1] eqn:Hcheck; [done|].
  apply checkPermission_Throw in Hcheck as (-> & _). by intros [= _ <- _].
Qed.

(** X6: a method that throws has changed nothing: whenever [add], [edit],
    [delete] or [getList] fails, on whatever guard, validation or lookup,
    the database is the one it was called on. *)
Theorem failure_changes_nothing db e db' q :
  (∃ now content userId discussionId0,
     PostClass.add now content userId discussionId0 db = (Throw e, db', q))
  ∨ (∃ now content userId id,
       PostClass.edit now content userId id db = (Throw e, db', q))
  ∨ (∃ userId id, PostClass.delete userId id db = (Throw e, db', q))
  ∨ (∃ userId discussionId0,
       PostClass.getList userId discussionId0 db = (Throw e, db', q)) →
  db' = db.
Proof.
  intros [(now & c & u & d & Ha) | [(now & c & u & i & He)
         | [(u & i & Hd) | (u & d & Hg)]]].
  - by apply add_Throw in Ha.
  - by apply edit_Throw in He.
  - by apply delete_Throw in Hd.
  - rewrite getList_run in Hg.
    destruct (PostClass.checkPermission _ _ _ _) as [[[a|e1] db1] q1] eqn:Hc; [done|].
    apply checkPermission_Throw in Hc as (-> & _). by simplify_eq.
Qed.

End Authorization.

(** ** What the writes do to the collection *)

Section Writes.
Context `{Libraries}.

Lemma set_posts_id db : set_posts db (posts db) = db.
Proof. by destruct db. Qed.

Lemma set_posts_set_posts db ps ps' :
  set_posts (set_posts db ps) ps' = set_posts db ps'.
Proof. done. Qed.

(** A post [create] accepted is valid for the schema. *)
Lemma add_Ok_valid now content userId discussionId0 db doc db' q :
  PostClass.add now content userId discussionId0 db = (Ok doc, db', q) →
  Mongoose.validate doc.2 = [].
Proof.
  intros Ha.
  destruct (decide (content = EmptyString)) as [->|Hc].
  { by rewrite add_bad_data in Ha. }
  rewrite add_create in Ha by done.
  destruct (Mongoose.validate _) eqn:Hv; [|done].
  cbv zeta in Ha. by injection Ha as <- _ _.
Qed.

(** X7: a successful [add] stores one more post and touches no other: the
    id it returns was not in use, every post stored before is still there
    unchanged, and the new post records the caller as [createdUserId], the
    given discussion and content, [createdAt] as the time of the call,
    [isEdited = false] and no [lastUpdatedAt]. *)
Theorem add_creates_one_post now content userId discussionId0 db doc db' q :
  PostClass.add now content userId discussionId0 db = (Ok doc, db', q) →
  posts db !! doc.1 = None ∧ posts db' !! doc.1 = Some doc.2
  ∧ (∀ id, id ≠ doc.1 → posts db' !! id = posts db !! id)
  ∧ size (posts db') = S (size (posts db))
  ∧ createdUserId doc.2 = userId ∧ discussionId doc.2 = discussionId0
  ∧ PostDocument.content doc.2 = content
  ∧ createdAt doc.2 = now ∧ isEdited doc.2 = false ∧ lastUpdatedAt doc.2 = None
  ∧ discussions db' = discussions db ∧ teams db' = teams db.
Proof.
  destruct doc as [id p]. intros Ha.
  apply add_Ok in Ha as (_ & Hnone & Hp & ->). cbn in *. subst p.
  split_and!; try done.
  - apply lookup_insert_eq.
  - intros id' Hne. by apply lookup_insert_ne.
  - by apply map_size_insert_None.
Qed.

(** X8: a successful [delete] removes the post of the given id and
    nothing else: the id is no longer in use, every other post is
    unchanged, there is one post less, and the discussions and teams are as
    they were. *)
Theorem delete_removes_one_post userId id db u db' q :
  PostClass.delete userId id db = (Ok u, db', q) →
  is_Some (posts db !! id) ∧ posts db' !! id = None
  ∧ (∀ id', id' ≠ id → posts db' !! id' = posts db !! id')
  ∧ size (posts db) = S (size (posts db'))
  ∧ discussions db' = discussions db ∧ teams db' = teams db.
Proof.
  intros Hd. apply delete_Ok_member in Hd as (_ & old & Hold & _ & _ & ->). cbn.
  split_and!; try done.
  - apply lookup_delete_eq.
  - intros id' Hne. by apply lookup_delete_ne.
  - rewrite <- (insert_delete_id (posts db) id old Hold) at 1.
    apply map_size_insert_None, lookup_delete_eq.
Qed.

(** X9: [delete] undoes [add]: when the author of a post just added, a
    member of its discussion and team, deletes it under the id [add]
    returned (an id that is not empty), the database is again the one
    before the [add]. *)
Theorem add_then_delete now content userId discussionId0 db doc db1 q :
  PostClass.add now content userId discussionId0 db = (Ok doc, db1, q) →
  doc.1 ≠ EmptyString → member_of db userId discussionId0 →
  ∃ q', PostClass.delete userId doc.1 db1 = (Ok (), db, q').
Proof.
  destruct doc as [id p]. intros Ha Hi Hm.
  apply add_Ok in Ha as (_ & Hnone & Hp & ->). cbn in *. subst p.
  destruct (delete_member userId id
              (set_posts db (<[id := added now content userId discussionId0]> (posts db)))
              (added now content userId discussionId0)) as [q' Hq']; try done.
  { apply lookup_insert_eq. }
  exists q'. rewrite Hq'. cbn [posts set_posts].
  by rewrite set_posts_set_posts, delete_insert_id, set_posts_id.
Qed.

(** X10: a post that was added is listed: after a successful [add] to a
    discussion, [getList] of a member returns, for that discussion, the
    posts it returned before and the new one, and for any other discussion
    the posts it returned before. *)
Theorem add_then_getList now content author discussionId0 db doc db1 qa
    userId discussionId1 l q :
  PostClass.add now content author discussionId0 db = (Ok doc, db1, qa) →
  PostClass.getList userId discussionId1 db = (Ok l, db, q) →
  ∃ l1 q1, PostClass.getList userId discussionId1 db1 = (Ok l1, db1, q1)
           ∧ ∀ x, x ∈ l1 ↔ (x = doc ∧ discussionId0 = discussionId1) ∨ x ∈ l.
Proof.
  destruct doc as [id p]. intros Ha Hg.
  apply add_Ok in Ha as (_ & Hnone & Hp & ->). cbn in *. subst p.
  apply getList_Ok in Hg as (Hm & -> & _).
  destruct (getList_member userId discussionId1
              (set_posts db (<[id := added now content author discussionId0]> (posts db))))
    as [q1 Hq1]; [done|].
  eexists _, q1. split; [exact Hq1|].
  intros [id' p']. rewrite !elem_of_listing. cbn [posts set_posts].
  rewrite lookup_insert_Some. split.
  - intros [[[<- <-] | [Hne Hl]] Hd]; [left | right]; done.
  - intros [[[= -> ->] <-] | [Hl Hd]]; [split; [by left | done] | split; [|done]].
    right. split; [|done]. intros ->. congruence.
Qed.

(** X11: a post that was deleted is no longer listed: after a successful
    [delete], [getList] of a member returns the posts it returned before
    except the one of the deleted id. *)
Theorem delete_then_getList author id db u db1 qd userId discussionId1 l q :
  PostClass.delete author id db = (Ok u, db1, qd) →
  PostClass.getList userId discussionId1 db = (Ok l, db, q) →
  ∃ l1 q1, PostClass.getList userId discussionId1 db1 = (Ok l1, db1, q1)
           ∧ ∀ x, x ∈ l1 ↔ x ∈ l ∧ x.1 ≠ id.
Proof.
  intros Hd Hg.
  apply delete_Ok_member in Hd as (_ & old & Hold & _ & _ & ->).
  apply getList_Ok in Hg as (Hm & -> & _).
  destruct (getList_member userId discussionId1 (set_posts db (delete id (posts db))))
    as [q1 Hq1]; [done|].
  eexists _, q1. split; [exact Hq1|].
  intros [id' p']. rewrite !elem_of_listing. cbn [posts set_posts fst].
  rewrite lookup_delete_Some. split.
  - intros [[Hne Hl] Hdisc]. split_and!; [done | done | congruence].
  - intros [[Hl Hdisc] Hne]. split_and!; [congruence | done | done].
Qed.

(** X12: the last [edit] wins: when two edits of the same post by its
    author succeed one after the other, the second returns the post and
    leaves the database that it would have returned and left had the first
    not been made. *)
Theorem edit_twice now1 content1 now2 content2 userId id db r1 db1 q1 r2 db2 q2 :
  PostClass.edit now1 content1 userId id db = (Ok r1, db1, q1) →
  PostClass.edit now2 content2 userId id db1 = (Ok r2, db2, q2) →
  ∃ q, PostClass.edit now2 content2 userId id db = (Ok r2, db2, q).
Proof.
  intros H1 H2.
  apply edit_Ok in H1 as (old & _ & _ & _ & _ & _ & Hold & _ & _ & ->).
  pose proof (edit_only_by_author_member_aux _ _ _ _ _ _ _ _ H2)
    as (Hc & Hi & old' & Hold' & Ha & Hm).
  apply edit_Ok in H2 as (old2 & _ & _ & _ & _ & Hh & Hold2 & _ & -> & ->).
  cbn [posts set_posts] in *. rewrite lookup_insert_eq in Hold', Hold2.
  injection Hold' as <-. injection Hold2 as <-. cbn in Ha, Hm.
  destruct (edit_member now2 content2 userId id db old) as [q Hq]; try done.
  exists q. rewrite Hq. by rewrite set_posts_set_posts, insert_insert_eq.
Qed.

(** X13: an edited post stays listed, with its new content: after a
    successful [edit], [getList] of a member returns the posts it returned
    before, except that the post of the edited id, if it was among them, is
    returned as updated. *)
Theorem edit_then_getList now content author id db r db1 qe userId discussionId1 l q :
  PostClass.edit now content author id db = (Ok r, db1, qe) →
  PostClass.getList userId discussionId1 db = (Ok l, db, q) →
  ∃ l1 q1, PostClass.getList userId discussionId1 db1 = (Ok l1, db1, q1)
           ∧ ∀ x, x ∈ l1 ↔ (x.1 ≠ id ∧ x ∈ l)
                            ∨ (∃ old, (id, old) ∈ l ∧ x = (id, edited old now content)).
Proof.
  intros He Hg.
  apply edit_Ok in He as (old & _ & _ & _ & _ & _ & Hold & _ & _ & ->).
  apply getList_Ok in Hg as (Hm & -> & _).
  destruct (getList_member userId discussionId1
              (set_posts db (<[id := edited old now content]> (posts db))))
    as [q1 Hq1]; [done|].
  eexists _, q1. split; [exact Hq1|].
  intros [id' p']. rewrite elem_of_listing. cbn [posts set_posts fst].
  rewrite lookup_insert_Some. split.
  - intros [[[<- <-] | [Hne Hl]] Hd].
    + right. exists old. by rewrite elem_of_listing.
    + left. rewrite elem_of_listing. split_and!; [congruence | done | done].
  - intros [[Hne [Hl Hd]%elem_of_listing] | (old0 & [Hl Hd]%elem_of_listing & [= -> ->])].
    + split; [|done]. right. split; [congruence | done].
    + assert (old0 = old) as -> by congruence. split; [by left | done].
Qed.

(** X14: in every database reached from an empty collection, each stored
    post is valid for the schema: its [createdUserId], [discussionId],
    [content] and [htmlContent] are not empty. *)
Theorem reachable_posts_valid db :
  reachable db → map_Forall (λ _ p, Mongoose.validate p = []) (posts db).
Proof.
  induction 1 as [db Hempty | db db' _ IH Hstep].
  - rewrite Hempty. apply map_Forall_empty.
  - destruct Hstep as [now content userId discussionId0 db [id p] db' q Ha
                      | now content userId id db r db' q He
                      | userId id db u db' q Hd].
    + pose proof (add_Ok_valid _ _ _ _ _ _ _ _ Ha) as Hv.
      apply add_Ok in Ha as (_ & _ & _ & ->). by apply map_Forall_insert_2.
    + apply edit_Ok in He as (old & _ & _ & Hc & _ & Hh & Hold & _ & _ & ->).
      apply map_Forall_insert_2; [|done].
      apply (map_Forall_lookup_1 _ _ _ _ IH) in Hold.
      apply validate_nil in Hold as (? & ? & _ & _). by apply validate_nil.
    + apply delete_Ok in Hd as (old & _ & _ & ->). by apply map_Forall_delete.
Qed.

(** X15: in every database reached from an empty collection, a post has
    [isEdited = true] exactly when it has a [lastUpdatedAt]. *)
Theorem reachable_isEdited_iff_lastUpdatedAt db :
  reachable db →
  map_Forall (λ _ p, isEdited p = true ↔ is_Some (lastUpdatedAt p)) (posts db).
Proof.
  induction 1 as [db Hempty | db db' _ IH Hstep].
  - rewrite Hempty. apply map_Forall_empty.
  - destruct Hstep as [now content userId discussionId0 db [id p] db' q Ha
                      | now content userId id db r db' q He
                      | userId id db u db' q Hd].
    + apply add_Ok in Ha as (_ & _ & Hp & ->). cbn in *. subst p.
      apply map_Forall_insert_2; [|done]. cbn. split; [done | by intros [? ?]].
    + apply edit_Ok in He as (old & _ & _ & _ & _ & _ & _ & _ & _ & ->).
      apply map_Forall_insert_2; [|done]. cbn. split; [eauto | done].
    + apply delete_Ok in Hd as (old & _ & _ & ->). by apply map_Forall_delete.
Qed.

(** X16: a caller changes only posts of their own: whatever [edit] and
    [delete] called by a user do, a stored post whose [createdUserId] is not
    that user is stored unchanged afterwards. *)
Theorem posts_of_others_untouched now content userId id db id' p :
  posts db !! id' = Some p → createdUserId p ≠ userId →
  posts (PostClass.edit now content userId id db).1.2 !! id' = Some p
  ∧ posts (PostClass.delete userId id db).1.2 !! id' = Some p.
Proof.
  intros Hp Hne. split.
  - destruct (PostClass.edit now content userId id db) as [[[r|e] db'] q] eqn:He; cbn.
    + pose proof (edit_only_by_author_member_aux _ _ _ _ _ _ _ _ He)
        as (_ & _ & old & Hold & Ha & _).
      apply edit_Ok in He as (old0 & _ & _ & _ & _ & _ & _ & _ & _ & ->).
      cbn. rewrite lookup_insert_ne; [done|]. intros ->. congruence.
    + by apply edit_Throw in He as ->.
  - destruct (PostClass.delete userId id db) as [[[r|e] db'] q] eqn:Hd; cbn.
    + apply delete_Ok_member in Hd as (_ & old & Hold & Ha & _ & ->).
      cbn. rewrite lookup_delete_ne; [done|]. intros ->. congruence.
    + by apply delete_Throw in Hd as ->.
Qed.

(** X17: no successful call of [add], [edit] or [delete] changes the
    author, the discussion or the creation date of a post that is stored
    before and after it. *)
Theorem step_keeps_identity db db' id p p' :
  step db db' → posts db !! id = Some p → posts db' !! id = Some p' →
  createdUserId p' = createdUserId p ∧ discussionId p' = discussionId p
  ∧ createdAt p' = createdAt p.
Proof.
  intros Hstep Hp Hp'.
  destruct Hstep as [now content userId discussionId0 db [id0 p0] db' q Ha
                    | now content userId id0 db r db' q He
                    | userId id0 db u db' q Hd].
  - apply add_Ok in Ha as (_ & Hnone & _ & ->). cbn in *.
    rewrite lookup_insert_ne in Hp' by congruence. by simplify_eq.
  - apply edit_Ok in He as (old & _ & _ & _ & _ & _ & Hold & _ & _ & ->). cbn in *.
    destruct (decide (id0 = id)) as [->|Hne].
    + rewrite lookup_insert_eq in Hp'. by simplify_eq.
    + rewrite lookup_insert_ne in Hp' by done. by simplify_eq.
  - apply delete_Ok in Hd as (old & _ & _ & ->). cbn in *.
    apply lookup_delete_Some in Hp' as [_ Hp']. by simplify_eq.
Qed.

End Writes.

(** ** Concrete runs *)

#[local] Existing Instance sample_libraries.

Lemma C1_edit_delete_refused_witness :
  "new" ≠ EmptyString ∧ "p1" ≠ EmptyString ∧ "alice" ≠ EmptyString
  ∧ posts team_without_alice_db !! "p1" = Some alice_post
  ∧ Mongoose.validate alice_post = []
  ∧ both_throw 2000 "new" "alice" "p1" team_without_alice_db (Error "Team not found")
      [Post_findById "p1"; Discussion_findById "d1"; Team_findById "t1"]
  ∧ both_throw 2000 "new" "bob" "p1" team_without_alice_db (Error "Permission denied")
      [Post_findById "p1"].
Proof.
  do 5 (split; [done|]). split.
  - assert (posts team_without_alice_db !! "p1" = Some alice_post) as Hp by reflexivity.
    pose proof (C1_edit_delete_refused 2000 "new" "alice" "p1" team_without_alice_db
                  alice_post ltac:(done) ltac:(done) ltac:(done) Hp ltac:(done))
      as (_ & Hauthor & _).
    destruct (Hauthor eq_refl (Discussion.mk "t1" ["alice"; "bob"] "general") eq_refl)
      as [_ Hteam].
    apply Hteam; [apply list_elem_of_here|].
    intros team [= <-]. cbn. by intros ?%list_elem_of_singleton.
  - assert (posts team_without_alice_db !! "p1" = Some alice_post) as Hp by reflexivity.
    pose proof (C1_edit_delete_refused 2000 "new" "bob" "p1" team_without_alice_db
                  alice_post ltac:(done) ltac:(done) ltac:(done) Hp ltac:(done))
      as (Hother & _).
    by apply Hother.
Defined.

(** The author of a post, a member of its discussion but not of the
    discussion's team, is refused with [Team not found], not with
    [Permission denied]; and a caller who is not the author is refused with
    [Bad data] when the content or the user id is empty. *)
Lemma C1_team_non_member_not_PermissionDenied :
  createdUserId alice_post = "alice"
  ∧ discussions team_without_alice_db !! discussionId alice_post
    = Some (Discussion.mk "t1" ["alice"; "bob"] "general")
  ∧ teams team_without_alice_db !! "t1" = Some (Team.mk ["bob"] "acme")
  ∧ PostClass.edit 2000 "new" "alice" "p1" team_without_alice_db
    = (Throw (Error "Team not found"), team_without_alice_db,
       [Post_findById "p1"; Discussion_findById "d1"; Team_findById "t1"])
  ∧ PostClass.delete "alice" "p1" team_without_alice_db
    = (Throw (Error "Team not found"), team_without_alice_db,
       [Post_findById "p1"; Discussion_findById "d1"; Team_findById "t1"])
  ∧ kind_of (Error "Team not found") ≠ PermissionDenied
  ∧ PostClass.edit 2000 EmptyString "bob" "p1" team_without_alice_db
    = (Throw (Error "Bad data"), team_without_alice_db, [])
  ∧ PostClass.delete EmptyString "p1" team_without_alice_db
    = (Throw (Error "Bad data"), team_without_alice_db, [Post_findById "p1"])
  ∧ kind_of (Error "Bad data") ≠ PermissionDenied.
Proof. split_and!; try reflexivity; discriminate. Qed.

Lemma C10_ownership_before_lookups_witness :
  "p1" ≠ EmptyString ∧ "bob" ≠ EmptyString
  ∧ posts posts_only_db !! "p1" = Some alice_post
  ∧ Mongoose.validate alice_post = []
  ∧ createdUserId alice_post ≠ "bob"
  ∧ discussions posts_only_db !! discussionId alice_post = None
  ∧ PostClass.delete "bob" "p1" posts_only_db
    = (Throw (Error "Permission denied"), posts_only_db, [Post_findById "p1"]).
Proof.
  do 6 (split; [done|]).
  apply (C10_ownership_before_lookups 2000 "new" "bob" "p1" posts_only_db alice_post);
    done.
Defined.

(** With an empty user id the ownership check is not reached: the call
    fails with [Bad data] although the post exists and was created by
    somebody else. *)
Lemma C10_empty_userId_is_bad_data :
  posts sample_db !! "p1" = Some alice_post
  ∧ createdUserId alice_post ≠ EmptyString
  ∧ PostClass.edit 2000 "new" EmptyString "p1" sample_db
    = (Throw (Error "Bad data"), sample_db, [Post_findById "p1"])
  ∧ PostClass.delete EmptyString "p1" sample_db
    = (Throw (Error "Bad data"), sample_db, [Post_findById "p1"])
  ∧ kind_of (Error "Bad data") ≠ PermissionDenied.
Proof. split_and!; try reflexivity; discriminate. Qed.

Lemma C6_missing_post_witness :
  Mongoose.isObjectId unused_id = true ∧ posts sample_db !! unused_id = None
  ∧ ("new" ≠ EmptyString →
     PostClass.edit 2000 "new" "alice" unused_id sample_db
     = (Throw (TypeError "discussionId"), sample_db, [Post_findById unused_id]))
  ∧ PostClass.delete "alice" unused_id sample_db
    = (Throw (TypeError "discussionId"), sample_db, [Post_findById unused_id])
  ∧ kind_of (TypeError "discussionId") = NotFound.
Proof.
  split; [reflexivity|]. split; [reflexivity|].
  apply (C6_missing_post 2000 "new" "alice" unused_id sample_db); reflexivity.
Defined.

(** [edit] with an empty content and a well-formed id that matches no post
    fails with [Bad data] before it looks for the post. *)
Lemma C6_edit_empty_content_is_bad_data :
  Mongoose.isObjectId unused_id = true ∧ posts sample_db !! unused_id = None
  ∧ PostClass.edit 2000 EmptyString "alice" unused_id sample_db
    = (Throw (Error "Bad data"), sample_db, [])
  ∧ kind_of (Error "Bad data") ≠ NotFound.
Proof. split_and!; try reflexivity; discriminate. Qed.

Lemma C3_add_without_permission_check_witness :
  "hello" ≠ EmptyString
  ∧ discussions posts_only_db !! "d9" = None
  ∧ PostClass.add 2000 "hello" "mallory" "d9" posts_only_db
    = (Ok (fresh (dom (posts posts_only_db)), added 2000 "hello" "mallory" "d9"),
       set_posts posts_only_db
         (<[fresh (dom (posts posts_only_db)) := added 2000 "hello" "mallory" "d9"]>
            (posts posts_only_db)),
       [Post_create]).
Proof.
  split; [done|]. split; [reflexivity|].
  destruct (C3_add_without_permission_check 2000 "hello" "mallory" "d9" posts_only_db)
    as (_ & Hcreates & _); [done|].
  by apply Hcreates.
Defined.

(** [add] with a non-empty content and an empty user id creates no post:
    the creation is rejected because [createdUserId] is required. *)
Lemma C3_add_empty_userId_creates_nothing :
  "hello" ≠ EmptyString
  ∧ PostClass.add 2000 "hello" EmptyString "d1" sample_db
    = (Throw (ValidationError ["createdUserId"]), sample_db, [Post_create]).
Proof. split; [done | reflexivity]. Qed.

Lemma C2_htmlContent_is_rendered_content_witness :
  PostClass.add 2000 "new" "alice" "d1" sample_db
  = (Ok ("0", added 2000 "new" "alice" "d1"),
     set_posts sample_db (<["0" := added 2000 "new" "alice" "d1"]> (posts sample_db)),
     [Post_create])
  ∧ posts (set_posts sample_db (<["0" := added 2000 "new" "alice" "d1"]> (posts sample_db)))
      !! "0" = Some (added 2000 "new" "alice" "d1")
  ∧ rendered (added 2000 "new" "alice" "d1")
  ∧ (map_Forall (λ _, rendered) (posts sample_db)
     → map_Forall (λ _, rendered)
         (posts (set_posts sample_db
                   (<["0" := added 2000 "new" "alice" "d1"]> (posts sample_db))))).
Proof.
  assert (PostClass.add 2000 "new" "alice" "d1" sample_db
          = (Ok ("0", added 2000 "new" "alice" "d1"),
             set_posts sample_db (<["0" := added 2000 "new" "alice" "d1"]> (posts sample_db)),
             [Post_create])) as Hadd by reflexivity.
  split; [exact Hadd|].
  exact (proj1 (C2_htmlContent_is_rendered_content sample_db) _ _ _ _ _ _ _ Hadd).
Defined.

Lemma C8_edit_frame_witness :
  PostClass.edit 2000 "new" "alice" "p1" sample_db
  = (Ok (Some ("p1", edited alice_post 2000 "new")),
     set_posts sample_db (<["p1" := edited alice_post 2000 "new"]> (posts sample_db)),
     [Post_findById "p1"; Discussion_findById "d1"; Team_findById "t1";
      Post_findOneAndUpdate "p1"])
  ∧ ∃ old new,
      posts sample_db !! "p1" = Some old
      ∧ Some ("p1", edited alice_post 2000 "new") = Some ("p1", new)
      ∧ posts (set_posts sample_db (<["p1" := edited alice_post 2000 "new"]> (posts sample_db)))
          !! "p1" = Some new
      ∧ isEdited new = true ∧ lastUpdatedAt new = Some 2000
      ∧ content new = "new" ∧ htmlContent new = markdownToHtml "new"
      ∧ createdUserId new = createdUserId old
      ∧ discussionId new = discussionId old
      ∧ createdAt new = createdAt old
      ∧ (∀ id', id' ≠ "p1" →
           posts (set_posts sample_db
                    (<["p1" := edited alice_post 2000 "new"]> (posts sample_db))) !! id'
           = posts sample_db !! id')
      ∧ dom (posts (set_posts sample_db
                      (<["p1" := edited alice_post 2000 "new"]> (posts sample_db))))
        = dom (posts sample_db)
      ∧ discussions (set_posts sample_db
                       (<["p1" := edited alice_post 2000 "new"]> (posts sample_db)))
        = discussions sample_db
      ∧ teams (set_posts sample_db
                 (<["p1" := edited alice_post 2000 "new"]> (posts sample_db)))
        = teams sample_db.
Proof.
  assert (PostClass.edit 2000 "new" "alice" "p1" sample_db
          = (Ok (Some ("p1", edited alice_post 2000 "new")),
             set_posts sample_db (<["p1" := edited alice_post 2000 "new"]> (posts sample_db)),
             [Post_findById "p1"; Discussion_findById "d1"; Team_findById "t1";
              Post_findOneAndUpdate "p1"])) as Hedit by reflexivity.
  split; [exact Hedit|].
  exact (C8_edit_frame _ _ _ _ _ _ _ _ Hedit).
Defined.

Lemma C7_getList_discussion_posts_sorted_witness :
  PostClass.getList "bob" "d1" three_posts_db
  = (Ok [("p1", alice_post); ("p3", bob_reply)], three_posts_db,
     [Discussion_findById "d1"; Team_findById "t1"; Post_find "d1"])
  ∧ (∀ id p, (id, p) ∈ [("p1", alice_post); ("p3", bob_reply)]
             ↔ posts three_posts_db !! id = Some p ∧ discussionId p = "d1")
  ∧ NoDup [("p1", alice_post); ("p3", bob_reply)]
  ∧ StronglySorted (λ a b : string * PostDocument.t, createdAt a.2 ≤ createdAt b.2)
      [("p1", alice_post); ("p3", bob_reply)]
  ∧ three_posts_db = three_posts_db.
Proof.
  assert (PostClass.getList "bob" "d1" three_posts_db
          = (Ok [("p1", alice_post); ("p3", bob_reply)], three_posts_db,
             [Discussion_findById "d1"; Team_findById "t1"; Post_find "d1"])) as Hlist
    by reflexivity.
  split; [exact Hlist|].
  exact (C7_getList_discussion_posts_sorted _ _ _ _ _ _ Hlist).
Defined.

(** *** Runs of the further properties *)

Lemma getList_refused_reads_no_post_witness :
  PostClass.getList "mallory" "d1" sample_db
  = (Throw (Error "Permission denied"), sample_db, [Discussion_findById "d1"])
  ∧ sample_db = sample_db
  ∧ Error "Permission denied" ∈ permission_errors
  ∧ Forall (λ c, on_posts c = false) [Discussion_findById "d1"].
Proof.
  assert (PostClass.getList "mallory" "d1" sample_db
          = (Throw (Error "Permission denied"), sample_db, [Discussion_findById "d1"]))
    as Hg by reflexivity.
  split; [exact Hg|].
  exact (getList_refused_reads_no_post _ _ _ _ _ _ Hg).
Defined.

Lemma edit_only_by_author_member_witness :
  PostClass.edit 2000 "new" "alice" "p1" sample_db
  = (Ok (Some ("p1", edited_post)), after_edit, edit_calls)
  ∧ "new" ≠ EmptyString ∧ "p1" ≠ EmptyString
  ∧ ∃ old, posts sample_db !! "p1" = Some old ∧ createdUserId old = "alice"
           ∧ member_of sample_db "alice" (discussionId old).
Proof.
  assert (PostClass.edit 2000 "new" "alice" "p1" sample_db
          = (Ok (Some ("p1", edited_post)), after_edit, edit_calls)) as He by reflexivity.
  split; [exact He|].
  exact (edit_only_by_author_member _ _ _ _ _ _ _ _ He).
Defined.

Lemma edit_by_author_member_succeeds_witness :
  "new" ≠ EmptyString ∧ "p1" ≠ EmptyString ∧ markdownToHtml "new" ≠ EmptyString
  ∧ posts sample_db !! "p1" = Some alice_post ∧ createdUserId alice_post = "alice"
  ∧ member_of sample_db "alice" (discussionId alice_post)
  ∧ ∃ q, PostClass.edit 2000 "new" "alice" "p1" sample_db
         = (Ok (Some ("p1", edited alice_post 2000 "new")),
            set_posts sample_db (<["p1" := edited alice_post 2000 "new"]> (posts sample_db)),
            q).
Proof.
  assert (member_of sample_db "alice" (discussionId alice_post)) as Hm.
  { apply (bool_decide_unpack _). reflexivity. }
  do 5 (split; [done|]). split; [exact Hm|].
  exact (edit_by_author_member_succeeds 2000 "new" "alice" "p1" sample_db alice_post
           ltac:(done) ltac:(done) ltac:(done) eq_refl eq_refl Hm).
Defined.

Lemma failure_changes_nothing_witness :
  ((∃ now content userId discussionId0,
      PostClass.add now content userId discussionId0 sample_db
      = (Throw (Error "Permission denied"), sample_db, [Post_findById "p1"]))
   ∨ (∃ now content userId id,
        PostClass.edit now content userId id sample_db
        = (Throw (Error "Permission denied"), sample_db, [Post_findById "p1"]))
   ∨ (∃ userId id,
        PostClass.delete userId id sample_db
        = (Throw (Error "Permission denied"), sample_db, [Post_findById "p1"]))
   ∨ (∃ userId discussionId0,
        PostClass.getList userId discussionId0 sample_db
        = (Throw (Error "Permission denied"), sample_db, [Post_findById "p1"])))
  ∧ sample_db = sample_db.
Proof.
  assert (PostClass.delete "bob" "p1" sample_db
          = (Throw (Error "Permission denied"), sample_db, [Post_findById "p1"]))
    as Hd by reflexivity.
  split.
  - right. right. left. exists "bob", "p1". exact Hd.
  - apply (failure_changes_nothing sample_db (Error "Permission denied") sample_db
             [Post_findById "p1"]).
    right. right. left. exists "bob", "p1". exact Hd.
Defined.

Lemma add_creates_one_post_witness :
  PostClass.add 2000 "new" "alice" "d1" sample_db = (Ok ("0", new_post), after_add, [Post_create])
  ∧ posts sample_db !! "0" = None ∧ posts after_add !! "0" = Some new_post
  ∧ (∀ id, id ≠ "0" → posts after_add !! id = posts sample_db !! id)
  ∧ size (posts after_add) = S (size (posts sample_db))
  ∧ createdUserId new_post = "alice" ∧ discussionId new_post = "d1"
  ∧ content new_post = "new"
  ∧ createdAt new_post = 2000 ∧ isEdited new_post = false ∧ lastUpdatedAt new_post = None
  ∧ discussions after_add = discussions sample_db ∧ teams after_add = teams sample_db.
Proof.
  assert (PostClass.add 2000 "new" "alice" "d1" sample_db
          = (Ok ("0", new_post), after_add, [Post_create])) as Ha by reflexivity.
  split; [exact Ha|].
  exact (add_creates_one_post _ _ _ _ _ _ _ _ Ha).
Defined.

Lemma delete_removes_one_post_witness :
  PostClass.delete "alice" "p1" sample_db = (Ok (), after_delete, delete_calls)
  ∧ is_Some (posts sample_db !! "p1") ∧ posts after_delete !! "p1" = None
  ∧ (∀ id', id' ≠ "p1" → posts after_delete !! id' = posts sample_db !! id')
  ∧ size (posts sample_db) = S (size (posts after_delete))
  ∧ discussions after_delete = discussions sample_db
  ∧ teams after_delete = teams sample_db.
Proof.
  assert (PostClass.delete "alice" "p1" sample_db = (Ok (), after_delete, delete_calls))
    as Hd by reflexivity.
  split; [exact Hd|].
  exact (delete_removes_one_post _ _ _ _ _ _ Hd).
Defined.

Lemma add_then_delete_witness :
  PostClass.add 2000 "new" "alice" "d1" sample_db = (Ok ("0", new_post), after_add, [Post_create])
  ∧ "0" ≠ EmptyString ∧ member_of sample_db "alice" "d1"
  ∧ ∃ q', PostClass.delete "alice" "0" after_add = (Ok (), sample_db, q').
Proof.
  assert (PostClass.add 2000 "new" "alice" "d1" sample_db
          = (Ok ("0", new_post), after_add, [Post_create])) as Ha by reflexivity.
  assert (member_of sample_db "alice" "d1") as Hm.
  { apply (bool_decide_unpack _). reflexivity. }
  split; [exact Ha|]. split; [done|]. split; [exact Hm|].
  exact (add_then_delete _ _ _ _ _ _ _ _ Ha ltac:(done) Hm).
Defined.

Lemma add_then_getList_witness :
  PostClass.add 2000 "new" "alice" "d1" sample_db = (Ok ("0", new_post), after_add, [Post_create])
  ∧ PostClass.getList "bob" "d1" sample_db
    = (Ok [("p1", alice_post)], sample_db, list_calls)
  ∧ ∃ l1 q1, PostClass.getList "bob" "d1" after_add = (Ok l1, after_add, q1)
             ∧ ∀ x, x ∈ l1 ↔ (x = ("0", new_post) ∧ "d1" = "d1") ∨ x ∈ [("p1", alice_post)].
Proof.
  assert (PostClass.add 2000 "new" "alice" "d1" sample_db
          = (Ok ("0", new_post), after_add, [Post_create])) as Ha by reflexivity.
  assert (PostClass.getList "bob" "d1" sample_db
          = (Ok [("p1", alice_post)], sample_db, list_calls))
    as Hg by reflexivity.
  split; [exact Ha|]. split; [exact Hg|].
  exact (add_then_getList _ _ _ _ _ _ _ _ _ _ _ _ Ha Hg).
Defined.

Lemma delete_then_getList_witness :
  PostClass.delete "alice" "p1" sample_db = (Ok (), after_delete, delete_calls)
  ∧ PostClass.getList "bob" "d1" sample_db
    = (Ok [("p1", alice_post)], sample_db, list_calls)
  ∧ ∃ l1 q1, PostClass.getList "bob" "d1" after_delete = (Ok l1, after_delete, q1)
             ∧ ∀ x, x ∈ l1 ↔ x ∈ [("p1", alice_post)] ∧ x.1 ≠ "p1".
Proof.
  assert (PostClass.delete "alice" "p1" sample_db = (Ok (), after_delete, delete_calls))
    as Hd by reflexivity.
  assert (PostClass.getList "bob" "d1" sample_db
          = (Ok [("p1", alice_post)], sample_db, list_calls))
    as Hg by reflexivity.
  split; [exact Hd|]. split; [exact Hg|].
  exact (delete_then_getList _ _ _ _ _ _ _ _ _ _ Hd Hg).
Defined.

Lemma edit_twice_witness :
  PostClass.edit 2000 "new" "alice" "p1" sample_db
  = (Ok (Some ("p1", edited_post)), after_edit, edit_calls)
  ∧ PostClass.edit 3000 "newer" "alice" "p1" after_edit
    = (Ok (Some ("p1", edited alice_post 3000 "newer")),
       set_posts sample_db (<["p1" := edited alice_post 3000 "newer"]> (posts sample_db)),
       edit_calls)
  ∧ ∃ q, PostClass.edit 3000 "newer" "alice" "p1" sample_db
         = (Ok (Some ("p1", edited alice_post 3000 "newer")),
            set_posts sample_db (<["p1" := edited alice_post 3000 "newer"]> (posts sample_db)),
            q).
Proof.
  assert (PostClass.edit 2000 "new" "alice" "p1" sample_db
          = (Ok (Some ("p1", edited_post)), after_edit, edit_calls)) as H1 by reflexivity.
  assert (PostClass.edit 3000 "newer" "alice" "p1" after_edit
          = (Ok (Some ("p1", edited alice_post 3000 "newer")),
             set_posts sample_db (<["p1" := edited alice_post 3000 "newer"]> (posts sample_db)),
             edit_calls)) as H2 by reflexivity.
  split; [exact H1|]. split; [exact H2|].
  exact (edit_twice _ _ _ _ _ _ _ _ _ _ _ _ _ H1 H2).
Defined.

Lemma edit_then_getList_witness :
  PostClass.edit 2000 "new" "alice" "p1" sample_db
  = (Ok (Some ("p1", edited_post)), after_edit, edit_calls)
  ∧ PostClass.getList "bob" "d1" sample_db
    = (Ok [("p1", alice_post)], sample_db, list_calls)
  ∧ ∃ l1 q1, PostClass.getList "bob" "d1" after_edit = (Ok l1, after_edit, q1)
             ∧ ∀ x, x ∈ l1 ↔ (x.1 ≠ "p1" ∧ x ∈ [("p1", alice_post)])
                              ∨ (∃ old, ("p1", old) ∈ [("p1", alice_post)]
                                        ∧ x = ("p1", edited old 2000 "new")).
Proof.
  assert (PostClass.edit 2000 "new" "alice" "p1" sample_db
          = (Ok (Some ("p1", edited_post)), after_edit, edit_calls)) as He by reflexivity.
  assert (PostClass.getList "bob" "d1" sample_db
          = (Ok [("p1", alice_post)], sample_db, list_calls))
    as Hg by reflexivity.
  split; [exact He|]. split; [exact Hg|].
  exact (edit_then_getList _ _ _ _ _ _ _ _ _ _ _ _ He Hg).
Defined.

Lemma after_first_add_reachable : reachable after_first_add.
Proof.
  apply (reachable_step empty_forum); [by apply reachable_empty|].
  by apply (step_add 1000 "hello" "alice" "d1" empty_forum ("0", alice_post)
              after_first_add [Post_create]).
Qed.

Lemma reachable_posts_valid_witness :
  reachable after_first_add
  ∧ map_Forall (λ _ p, Mongoose.validate p = []) (posts after_first_add).
Proof.
  split; [exact after_first_add_reachable|].
  exact (reachable_posts_valid _ after_first_add_reachable).
Defined.

Lemma reachable_isEdited_iff_lastUpdatedAt_witness :
  reachable after_first_add
  ∧ map_Forall (λ _ p, isEdited p = true ↔ is_Some (lastUpdatedAt p))
      (posts after_first_add).
Proof.
  split; [exact after_first_add_reachable|].
  exact (reachable_isEdited_iff_lastUpdatedAt _ after_first_add_reachable).
Defined.

Lemma posts_of_others_untouched_witness :
  posts sample_db !! "p1" = Some alice_post ∧ createdUserId alice_post ≠ "bob"
  ∧ posts (PostClass.edit 2000 "mine" "bob" "p1" sample_db).1.2 !! "p1" = Some alice_post
  ∧ posts (PostClass.delete "bob" "p1" sample_db).1.2 !! "p1" = Some alice_post.
Proof.
  split; [reflexivity|]. split; [done|].
  exact (posts_of_others_untouched 2000 "mine" "bob" "p1" sample_db "p1" alice_post
           eq_refl ltac:(done)).
Defined.

Lemma sample_edit_step : step sample_db after_edit.
Proof.
  by apply (step_edit 2000 "new" "alice" "p1" sample_db (Some ("p1", edited_post))
              after_edit edit_calls).
Qed.

Lemma step_keeps_identity_witness :
  step sample_db after_edit
  ∧ posts sample_db !! "p1" = Some alice_post
  ∧ posts after_edit !! "p1" = Some edited_post
  ∧ createdUserId edited_post = createdUserId alice_post
  ∧ discussionId edited_post = discussionId alice_post
  ∧ createdAt edited_post = createdAt alice_post.
Proof.
  split; [exact sample_edit_step|]. split; [reflexivity|]. split; [reflexivity|].
  exact (step_keeps_identity sample_db after_edit "p1" alice_post edited_post
           sample_edit_step eq_refl eq_refl).
Defined.
